(** * flash-attn helper scripts: the wheel installer and the runtime inspector

    A shallow embedding of [scripts/install_prebuilt_flash_attn.py] and
    [scripts/diagnose_flash_attn.py], with the properties of their
    specification stated and proved over it.

    Python [str] values are modelled as [string]: sequences of characters
    with code points below 256.  On that range the classes the scripts rely
    on are exactly the ones written out in [Py] below ([\d] is [0-9], and so
    on).  Exceptions are modelled by their class name and their [str()].  In
    the installer the model covers the subclasses of [Exception], which is
    what its [except Exception] clauses catch; in the inspector the
    environment says of each exception whether it is an instance of
    [Exception], and one that is not passes through the [except Exception]
    clauses of [_try_import] and [_cmd_output]. *)

From Stdlib Require Import Strings.String Strings.Ascii.
From Stdlib Require Import Lists.List Bool.Bool Arith.Arith ZArith.ZArith Lia.
From Stdlib Require Import Numbers.DecimalString.
Import ListNotations.

Open Scope string_scope.
Open Scope nat_scope.

(* ================================================================== *)
(** ** Python values and string primitives *)

Module Py.

(** An exception instance: [type(exc).__name__] and [str(exc)]. *)
Record Exc : Type := mkExc { exc_type : string; exc_msg : string }.

(** The outcome of a call that may raise. *)
Inductive result (A : Type) : Type :=
| Ok (a : A)
| Raise (e : Exc).
Arguments Ok {A} a.
Arguments Raise {A} e.

Definition code (c : ascii) : nat := nat_of_ascii c.

(** [\d] of the [re] module, on code points below 256. *)
Definition is_digit (c : ascii) : bool :=
  (48 <=? code c) && (code c <=? 57).

(** [str.isspace] on one character. *)
Definition is_space (c : ascii) : bool :=
  let n := code c in
  ((9 <=? n) && (n <=? 13)) || ((28 <=? n) && (n <=? 32))
  || (n =? 133) || (n =? 160).

(** The line boundaries of [str.splitlines]. *)
Definition is_linebreak (c : ascii) : bool :=
  let n := code c in
  ((10 <=? n) && (n <=? 13)) || ((28 <=? n) && (n <=? 30)) || (n =? 133).

Definition CR : ascii := ascii_of_nat 13.
Definition LF : ascii := ascii_of_nat 10.

Fixpoint all_chars (p : ascii -> bool) (s : string) : bool :=
  match s with
  | EmptyString => true
  | String c r => p c && all_chars p r
  end.

Fixpoint mem_char (c : ascii) (chars : string) : bool :=
  match chars with
  | EmptyString => false
  | String d r => Ascii.eqb c d || mem_char c r
  end.

(** [s.lstrip(chars)]: drop every leading character that is in [chars]. *)
Fixpoint lstrip (chars : string) (s : string) : string :=
  match s with
  | EmptyString => EmptyString
  | String c r => if mem_char c chars then lstrip chars r else s
  end.

Fixpoint lstrip_ws (s : string) : string :=
  match s with
  | EmptyString => EmptyString
  | String c r => if is_space c then lstrip_ws r else s
  end.

Fixpoint rstrip_ws (s : string) : string :=
  match s with
  | EmptyString => EmptyString
  | String c r =>
      let r' := rstrip_ws r in
      if is_space c && String.eqb r' "" then "" else String c r'
  end.

(** [s.strip()] *)
Definition strip (s : string) : string := rstrip_ws (lstrip_ws s).

(** [s.splitlines()]: [after_cr] records that the previous character was
    a carriage return, so that a line feed right after it belongs to the
    same boundary. *)
Fixpoint splitlines_from (after_cr : bool) (s : string) : list string :=
  match s with
  | EmptyString => []
  | String c r =>
      if after_cr && Ascii.eqb c LF then splitlines_from false r
      else if is_linebreak c then "" :: splitlines_from (Ascii.eqb c CR) r
      else match splitlines_from false r with
           | [] => [String c ""]
           | l :: ls => String c l :: ls
           end
  end.

Definition splitlines (s : string) : list string := splitlines_from false s.

(** [l[0]] and [l[-1]] on a list. *)
Definition index_error : Exc := mkExc "IndexError" "list index out of range".

Definition item_first {A} (l : list A) : result A :=
  match l with
  | [] => Raise index_error
  | x :: _ => Ok x
  end.

Fixpoint item_last {A} (l : list A) : result A :=
  match l with
  | [] => Raise index_error
  | [x] => Ok x
  | _ :: t => item_last t
  end.

(** [s.startswith(p)] *)
Fixpoint startswith (s p : string) {struct p} : bool :=
  match p with
  | EmptyString => true
  | String b p' =>
      match s with
      | EmptyString => false
      | String a s' => Ascii.eqb a b && startswith s' p'
      end
  end.

(** [sub in s] *)
Fixpoint contains (sub s : string) : bool :=
  startswith s sub ||
  match s with
  | EmptyString => false
  | String _ r => contains sub r
  end.

(** [s.lower()] *)
Definition lower_char (c : ascii) : ascii :=
  let n := code c in
  if ((65 <=? n) && (n <=? 90)) || ((192 <=? n) && (n <=? 214))
     || ((216 <=? n) && (n <=? 222))
  then ascii_of_nat (n + 32) else c.

Fixpoint lower (s : string) : string :=
  match s with
  | EmptyString => EmptyString
  | String c r => String (lower_char c) (lower r)
  end.

(** [s.replace(a, b)] for single characters [a] and [b]. *)
Fixpoint replace_char (a b : ascii) (s : string) : string :=
  match s with
  | EmptyString => EmptyString
  | String c r =>
      String (if Ascii.eqb c a then b else c) (replace_char a b r)
  end.

(** [str(n)] for a non-negative [int]. *)
Definition str_of_nat (n : nat) : string :=
  NilEmpty.string_of_uint (Nat.to_uint n).

(** [" ".join(l)] *)
Definition join_space (l : list string) : string := String.concat " " l.

(** [x in {a, b, ...}] for strings. *)
Definition mem_str (x : string) (l : list string) : bool :=
  existsb (String.eqb x) l.

(** [str(b)] for a [bool]. *)
Definition str_of_bool (b : bool) : string := if b then "True" else "False".

(** [str(x)] for an optional string attribute ([None] prints as such). *)
Definition str_of_opt (o : option string) : string :=
  match o with Some s => s | None => "None" end.

(** The longest prefix of digits, and what follows it. *)
Fixpoint span_digits (s : string) : string * string :=
  match s with
  | EmptyString => ("", "")
  | String c r =>
      if is_digit c
      then let (d, rest) := span_digits r in (String c d, rest)
      else ("", s)
  end.

(** [re.match(r"^(\d+)\.(\d+)", s)]: the two groups when the pattern
    matches.  Both groups are greedy; giving back a digit of the first
    group leaves a digit where the dot is required, and the pattern ends
    after the second group, so the match, when there is one, takes the
    longest run of digits twice. *)
Definition re_match_major_minor (s : string) : option (string * string) :=
  let (g1, r1) := span_digits s in
  if String.eqb g1 "" then None
  else match r1 with
       | String "."%char r2 =>
           let (g2, _) := span_digits r2 in
           if String.eqb g2 "" then None else Some (g1, g2)
       | _ => None
       end.

(** *** Runs: what a script does, and how it ends

    A computation yields the events it caused, in order, and then either a
    value or the exception that ended it. *)

Definition M (E A : Type) : Type := list E * result A.

Definition ret {E A} (a : A) : M E A := ([], Ok a).

Definition raise {E A} (e : Exc) : M E A := ([], Raise e).

Definition emit {E} (ev : E) : M E unit := ([ev], Ok tt).

Definition lift {E A} (r : result A) : M E A := ([], r).

Definition bind {E A B} (m : M E A) (k : A -> M E B) : M E B :=
  match m with
  | (t, Ok a) => let (t', r) := k a in ((t ++ t')%list, r)
  | (t, Raise e) => (t, Raise e)
  end.

(** [try: m except Exception as exc: h exc] *)
Definition try_except {E A} (m : M E A) (h : Exc -> M E A) : M E A :=
  match m with
  | (t, Ok a) => (t, Ok a)
  | (t, Raise e) => let (t', r) := h e in ((t ++ t')%list, r)
  end.

Definition trace {E A} (m : M E A) : list E := fst m.
Definition outcome {E A} (m : M E A) : result A := snd m.

(** The same for calls that cause no event. *)
Definition rbind {A B} (r : result A) (k : A -> result B) : result B :=
  match r with
  | Ok a => k a
  | Raise e => Raise e
  end.

Declare Scope run_scope.
Delimit Scope run_scope with run.
Notation "x <- m ;; k" := (bind m (fun x => k))
  (at level 61, m at next level, right associativity) : run_scope.
Notation "m ;; k" := (bind m (fun _ => k))
  (at level 61, right associativity) : run_scope.
Notation "x <~ r ;; k" := (rbind r (fun x => k))
  (at level 61, r at next level, right associativity) : run_scope.

End Py.

Import Py.


Open Scope run_scope.

(* ================================================================== *)
(** ** scripts/install_prebuilt_flash_attn.py *)

Module Installer.

Definition GITHUB_REPO : string := "Dao-AILab/flash-attention".
Definition GITHUB_API_RELEASE_LATEST : string :=
  "https://api.github.com/repos/" ++ GITHUB_REPO ++ "/releases/latest".
Definition DEFAULT_RELEASE_TAG : string := "v2.8.3".

Record RuntimeInfo : Type := mkRuntimeInfo {
  torch_version : string;
  torch_major_minor : string;
  torch_cuda : string;
  python_tag : string;
  cxx11abi : string;
  platform_tag : string
}.

(** The parsed command line. *)
Inductive InstallerChoice : Type := auto | uv | pip.

Record Args : Type := mkArgs {
  release_tag : option string;
  print_url : bool;
  installer : InstallerChoice
}.

(** What the script reads of the [torch] module. *)
Record TorchModule : Type := mkTorch {
  __version__ : string;
  version_cuda : option string;
  _GLIBCXX_USE_CXX11_ABI : bool
}.

(** A value found under ["tag_name"] in the release index: a string, or
    any other JSON value, of which the script only uses the type name, the
    [str()] and the truth value. *)
Inductive TagValue : Type :=
| TagStr (s : string)
| TagOther (type_name : string) (shown : string) (truthy : bool).

(** What the release index answers to the query for the latest release. *)
Inductive IndexResponse : Type :=
| IndexFails (e : Exc)
    (* [urlopen], [read], [decode] or [json.loads] raised [e] *)
| IndexNotObject (type_name : string)
    (* the payload is JSON, but not an object *)
| IndexObject (tag_name : option TagValue).
    (* the payload is an object; [None] when the key is absent or null *)

(** What the artifact host answers to a [HEAD] request. *)
Inductive HeadResponse : Type :=
| HeadOk
| HeadHTTPError (status : nat) (reason : string)
| HeadError (e : Exc).
    (* any failure of [urlopen] that is not an [HTTPError] *)

(** The environment of one invocation. *)
Record Env : Type := mkEnv {
  import_torch : result TorchModule;
  sys_version_info : nat * nat;
  sys_platform : string;
  platform_machine : string;
  sys_executable : string;
  release_index : IndexResponse;
  head : string -> HeadResponse;
  which_uv : bool;
  subprocess_run : list string -> result Z
}.

Definition set_release_index (r : IndexResponse) (env : Env) : Env :=
  {| import_torch := import_torch env;
     sys_version_info := sys_version_info env;
     sys_platform := sys_platform env;
     platform_machine := platform_machine env;
     sys_executable := sys_executable env;
     release_index := r;
     head := head env;
     which_uv := which_uv env;
     subprocess_run := subprocess_run env |}.

(** What an invocation does that can be observed from outside. *)
Inductive Event : Type :=
| EvPrint (line : string)
| EvIndexQuery (url : string) (r : IndexResponse)
| EvHead (url : string) (r : HeadResponse)
| EvRun (cmd : list string).

Definition print (line : string) : M Event unit := emit (EvPrint line).

Definition _parse_torch_major_minor (torch_version : string) : result string :=
  match re_match_major_minor torch_version with
  | None =>
      Raise (mkExc "RuntimeError"
               ("Unable to parse torch version: " ++ torch_version))
  | Some (g1, g2) => Ok (g1 ++ "." ++ g2)
  end.

Definition _platform_tag (env : Env) : result string :=
  if negb (startswith (sys_platform env) "linux") then
    Raise (mkExc "RuntimeError"
             "Prebuilt flash-attn wheel install is supported on Linux only.")
  else
    let machine := lower (platform_machine env) in
    if mem_str machine ["x86_64"; "amd64"] then Ok "linux_x86_64"
    else if mem_str machine ["aarch64"; "arm64"] then Ok "linux_aarch64"
    else Raise (mkExc "RuntimeError"
                  ("Unsupported machine architecture: " ++ machine)).

Definition tag_truthy (v : TagValue) : bool :=
  match v with
  | TagStr s => negb (String.eqb s "")
  | TagOther _ _ b => b
  end.

Definition tag_shown (v : TagValue) : string :=
  match v with
  | TagStr s => s
  | TagOther _ shown _ => shown
  end.

Definition no_attribute (type_name attr : string) : Exc :=
  mkExc "AttributeError"
    ("'" ++ type_name ++ "' object has no attribute '" ++ attr ++ "'").

Definition _get_latest_release_tag (env : Env) : M Event TagValue :=
  emit (EvIndexQuery GITHUB_API_RELEASE_LATEST (release_index env)) ;;
  match release_index env with
  | IndexFails e => raise e
  | IndexNotObject type_name => raise (no_attribute type_name "get")
  | IndexObject tag_name =>
      match tag_name with
      | Some v =>
          if tag_truthy v then ret v
          else raise (mkExc "RuntimeError"
                        "GitHub API response did not include tag_name.")
      | None => raise (mkExc "RuntimeError"
                         "GitHub API response did not include tag_name.")
      end
  end.

Definition _gather_runtime (env : Env) : result RuntimeInfo :=
  match import_torch env with
  | Raise _ =>
      Raise (mkExc "RuntimeError"
        "torch must be installed in this environment before installing flash-attn.")
  | Ok torch =>
      let torch_version := __version__ torch in
      torch_major_minor <~ _parse_torch_major_minor torch_version ;;
      let torch_cuda :=
        match version_cuda torch with Some s => s | None => "" end in
      if String.eqb torch_cuda "" then
        Raise (mkExc "RuntimeError"
          "CUDA runtime not detected in torch (torch.version.cuda is empty).")
      else if negb (startswith torch_cuda "12.") then
        Raise (mkExc "RuntimeError"
          ("Unsupported torch CUDA runtime " ++ torch_cuda ++ ". "
           ++ "This script currently targets flash-attn cu12 wheels."))
      else
        let python_tag :=
          "cp" ++ str_of_nat (fst (sys_version_info env))
               ++ str_of_nat (snd (sys_version_info env)) in
        let cxx11abi :=
          if _GLIBCXX_USE_CXX11_ABI torch then "TRUE" else "FALSE" in
        platform_tag <~ _platform_tag env ;;
        Ok {| torch_version := torch_version;
              torch_major_minor := torch_major_minor;
              torch_cuda := torch_cuda;
              python_tag := python_tag;
              cxx11abi := cxx11abi;
              platform_tag := platform_tag |}
  end.

Definition _wheel_url (release_tag : string) (runtime : RuntimeInfo) : string :=
  let version := lstrip "v" release_tag in
  let filename :=
    "flash_attn-" ++ version ++ "%2Bcu12torch" ++ torch_major_minor runtime
    ++ "cxx11abi" ++ cxx11abi runtime ++ "-" ++ python_tag runtime ++ "-"
    ++ python_tag runtime ++ "-" ++ platform_tag runtime ++ ".whl" in
  "https://github.com/" ++ GITHUB_REPO ++ "/releases/download/"
  ++ release_tag ++ "/" ++ filename.

Definition http_error (status : nat) (reason : string) : Exc :=
  mkExc "HTTPError"
    ("HTTP Error " ++ str_of_nat status ++ ": " ++ reason).

Definition _wheel_exists (env : Env) (url : string) : M Event bool :=
  emit (EvHead url (head env url)) ;;
  match head env url with
  | HeadOk => ret true
  | HeadHTTPError status reason =>
      if status =? 404 then ret false else raise (http_error status reason)
  | HeadError e => raise e
  end.

Definition _install_cmd (env : Env) (installer : InstallerChoice)
    (wheel_url : string) : list string :=
  let installer :=
    match installer with
    | auto => if which_uv env then uv else pip
    | other => other
    end in
  match installer with
  | uv => ["uv"; "pip"; "install"; "--force-reinstall"; "--no-deps"; wheel_url]
  | _ => [sys_executable env; "-m"; "pip"; "install"; "--force-reinstall";
          "--no-deps"; wheel_url]
  end.

(** Lines 161-171 of [main]: the release tag the run goes on with. *)
Definition resolve_release_tag (env : Env) (args : Args) : M Event TagValue :=
  match release_tag args with
  | Some t => ret (TagStr t)
  | None =>
      try_except
        (t <- _get_latest_release_tag env ;;
         print ("Using latest release tag: " ++ tag_shown t) ;;
         ret t)
        (fun exc =>
         print ("Could not resolve latest release tag (" ++ exc_type exc
                ++ ": " ++ exc_msg exc ++ "). "
                ++ "Falling back to " ++ DEFAULT_RELEASE_TAG ++ ".") ;;
         ret (TagStr DEFAULT_RELEASE_TAG))
  end.

(** [main]; the value is the status the process exits with, and a raised
    exception is one nothing catches. *)
Definition main (env : Env) (args : Args) : M Event Z :=
  runtime <- lift (_gather_runtime env) ;;
  release_tag <- resolve_release_tag env args ;;
  wheel_url <-
    match release_tag with
    | TagStr t => ret (_wheel_url t runtime)
    | TagOther type_name _ _ => raise (no_attribute type_name "lstrip")
    end ;;
  print ("torch=" ++ torch_version runtime ++ " cuda=" ++ torch_cuda runtime
         ++ " python=" ++ python_tag runtime) ;;
  print ("Resolved wheel: " ++ wheel_url) ;;
  found <- _wheel_exists env wheel_url ;;
  if negb found then
    print "No matching prebuilt wheel found for this runtime." ;;
    print ("Try a different --release-tag, or align python/torch to a runtime "
           ++ "with published flash-attn wheels.") ;;
    ret 2%Z
  else if print_url args then ret 0%Z
  else
    let cmd := _install_cmd env (installer args) wheel_url in
    print ("Installing via: " ++ join_space cmd) ;;
    emit (EvRun cmd) ;;
    returncode <- lift (subprocess_run env cmd) ;;
    ret returncode.

End Installer.

(* ================================================================== *)
(** ** scripts/diagnose_flash_attn.py *)

Module Inspector.

(** What the script reads of the [torch] module. *)
Record TorchModule : Type := mkTorch {
  __version__ : string;
  version_cuda : option string;
  cuda_is_available : bool
}.

(** What the script reads of the [flash_attn] package: its [__version__]
    attribute, when it has one. *)
Record FlashAttnModule : Type := mkFlashAttn {
  flash_version : option string
}.

(** The environment of one invocation. *)
Record Env : Type := mkEnv {
  sys_version : string;
  sys_executable : string;
  sys_platform : string;
  environ_CUDA_HOME : option string;
  check_output : list string -> result string;
  import_torch : result TorchModule;
  import_flash_attn : result FlashAttnModule;
  import_flash_attn_2_cuda : result unit;
  is_Exception : Exc -> bool
    (* [isinstance(exc, Exception)]: false for [SystemExit],
       [KeyboardInterrupt] and the other exceptions that derive from
       [BaseException] only *)
}.

(** What an invocation does that can be observed from outside; an import
    that [_try_import] handles is recorded with the exception it caught, if
    any, and an import whose exception passes through [_try_import] is
    recorded apart. *)
Inductive Event : Type :=
| EvPrint (line : string)
| EvProbe (cmd : list string) (r : result string)
| EvImport (module_name : string) (failure : option Exc)
| EvImportEscaped (module_name : string) (exc : Exc).

Definition print (line : string) : M Event unit := emit (EvPrint line).

(** [_try_import]; [imported] is what [importlib.import_module] does for
    [module_name] in the environment.  [except Exception] catches the
    instances of [Exception] only. *)
Definition _try_import {A} (env : Env) (module_name : string)
    (imported : result A) : M Event (bool * option A * option Exc) :=
  match imported with
  | Ok module => emit (EvImport module_name None) ;; ret (true, Some module, None)
  | Raise exc =>
      if is_Exception env exc then
        emit (EvImport module_name (Some exc)) ;; ret (false, None, Some exc)
      else
        emit (EvImportEscaped module_name exc) ;; raise exc
  end.

Definition _cmd_output (env : Env) (cmd : list string) : M Event string :=
  emit (EvProbe cmd (check_output env cmd)) ;;
  match check_output env cmd with
  | Ok output => ret (strip output)
  | Raise exc =>
      if is_Exception env exc then
        ret ("<unavailable: " ++ exc_type exc ++ ": " ++ exc_msg exc ++ ">")
      else raise exc
  end.

Definition nvcc_cmd : list string := ["nvcc"; "--version"].
Definition nvidia_smi_cmd : list string :=
  ["nvidia-smi"; "--query-gpu=driver_version"; "--format=csv,noheader"].

Definition _print_runtime (env : Env) : M Event unit :=
  print ("python: " ++ replace_char LF " " (sys_version env)) ;;
  print ("executable: " ++ sys_executable env) ;;
  print ("platform: " ++ sys_platform env) ;;
  print ("CUDA_HOME: " ++
         match environ_CUDA_HOME env with Some v => v | None => "<unset>" end) ;;
  nvcc <- _cmd_output env nvcc_cmd ;;
  nvcc_line <- lift (item_last (splitlines nvcc)) ;;
  print ("nvcc: " ++ nvcc_line) ;;
  smi <- _cmd_output env nvidia_smi_cmd ;;
  smi_line <- lift (item_first (splitlines smi)) ;;
  print ("nvidia-smi: " ++ smi_line).

(** [type(exc).__name__] and [str(exc)] of a value that is an exception or
    [None]. *)
Definition type_name (exc : option Exc) : string :=
  match exc with Some e => exc_type e | None => "NoneType" end.

Definition str_exc (exc : option Exc) : string :=
  match exc with Some e => exc_msg e | None => "None" end.

(** Attribute access on the second component of [_try_import]'s result. *)
Definition attr {A B} (module : option A) (name : string) (get : A -> B)
    : M Event B :=
  match module with
  | Some m => ret (get m)
  | None =>
      raise (mkExc "AttributeError"
               ("'NoneType' object has no attribute '" ++ name ++ "'"))
  end.

Definition abi_diagnosis (version cuda : string) : string :=
  "Diagnosis: ABI mismatch. flash-attn was built against a different "
  ++ "PyTorch/CUDA runtime than the current one (torch=" ++ version
  ++ ", cuda=" ++ cuda ++ ").".

Definition fix_line : string :=
  "Fix: reinstall flash-attn in this exact env after torch is finalized.".

Definition command_line : string :=
  "Command: uv run python scripts/install_prebuilt_flash_attn.py".

(** [main]; the value is the status the process exits with, and a raised
    exception is one nothing catches. *)
Definition main (env : Env) : M Event Z :=
  _print_runtime env ;;
  r_torch <- _try_import env "torch" (import_torch env) ;;
  let '(ok_torch, torch, torch_exc) := r_torch in
  if negb ok_torch then
    print ("torch import failed: " ++ type_name torch_exc ++ ": "
           ++ str_exc torch_exc) ;;
    ret 1%Z
  else
    version <- attr torch "__version__" __version__ ;;
    print ("torch: " ++ version) ;;
    cuda <- attr torch "version" version_cuda ;;
    print ("torch.version.cuda: " ++ str_of_opt cuda) ;;
    available <- attr torch "cuda" cuda_is_available ;;
    print ("torch.cuda.is_available: " ++ str_of_bool available) ;;
    r_flash <- _try_import env "flash_attn" (import_flash_attn env) ;;
    let '(ok_flash, flash_attn, flash_exc) := r_flash in
    if negb ok_flash then
      print ("flash_attn import failed: " ++ type_name flash_exc ++ ": "
             ++ str_exc flash_exc) ;;
      print "Diagnosis: flash-attn is missing or not loadable in this environment." ;;
      ret 2%Z
    else
      print ("flash_attn: " ++
             match flash_attn with
             | Some m =>
                 match flash_version m with Some v => v | None => "<unknown>" end
             | None => "<unknown>"
             end) ;;
      r_ext <- _try_import env "flash_attn_2_cuda" (import_flash_attn_2_cuda env) ;;
      let '(ok_ext, _, ext_exc) := r_ext in
      if negb ok_ext then
        let msg := type_name ext_exc ++ ": " ++ str_exc ext_exc in
        print ("flash_attn_2_cuda import failed: " ++ msg) ;;
        (if contains "undefined symbol" (str_exc ext_exc) then
           version <- attr torch "__version__" __version__ ;;
           cuda <- attr torch "version" version_cuda ;;
           print (abi_diagnosis version (str_of_opt cuda)) ;;
           print fix_line ;;
           print command_line
         else ret tt) ;;
        ret 3%Z
      else
        print "flash_attn_2_cuda import succeeded." ;;
        print "flash-attn looks ABI-compatible with this runtime." ;;
        ret 0%Z.

End Inspector.

(* ================================================================== *)
(** ** Notions the specification uses *)

(** A non-empty run of decimal digits. *)
Definition digits (s : string) : Prop :=
  s <> "" /\ all_chars is_digit s = true.

(** What follows does not go on with a digit. *)
Definition no_digit_next (s : string) : bool :=
  match s with
  | EmptyString => true
  | String c _ => negb (is_digit c)
  end.

(** The string begins with digits, a dot, digits. *)
Definition begins_with_major_minor (s : string) : Prop :=
  exists X Y rest, digits X /\ digits Y /\ s = X ++ "." ++ Y ++ rest.

(** The major version of a dotted version string: what precedes its first
    dot. *)
Fixpoint major_of (s : string) : string :=
  match s with
  | EmptyString => EmptyString
  | String c r => if Ascii.eqb c "." then EmptyString else String c (major_of r)
  end.

(** Fingerprints that fingerprint gathering can produce. *)
Definition gathered (rt : Installer.RuntimeInfo) : Prop :=
  exists env, Installer._gather_runtime env = Ok rt.


(** [torch.version.cuda or ""] *)
Definition cuda_or_empty (t : Installer.TorchModule) : string :=
  match Installer.version_cuda t with Some s => s | None => "" end.

(** What the inspector shows for a probe command: [_cmd_output] without
    the event. *)
Definition probe_text (env : Inspector.Env) (cmd : list string) : string :=
  match Inspector.check_output env cmd with
  | Ok output => strip output
  | Raise exc =>
      "<unavailable: " ++ exc_type exc ++ ": " ++ exc_msg exc ++ ">"
  end.

(** The exit code of the inspector's taxonomy for an environment. *)
Definition diagnosis_code (env : Inspector.Env) : Z :=
  match Inspector.import_torch env with
  | Raise _ => 1
  | Ok _ =>
      match Inspector.import_flash_attn env with
      | Raise _ => 2
      | Ok _ =>
          match Inspector.import_flash_attn_2_cuda env with
          | Raise _ => 3
          | Ok _ => 0
          end
      end
  end.

(** Character classes of the fields of a gathered fingerprint. *)
Definition digit_or_dot (c : ascii) : bool := is_digit c || Ascii.eqb c ".".
Definition not_dash (c : ascii) : bool := negb (Ascii.eqb c "-").

(* ================================================================== *)
(** ** Sample environments *)

Module Sample.

Import Installer.

Definition torch : TorchModule :=
  {| __version__ := "2.4.1+cu121";
     version_cuda := Some "12.1";
     _GLIBCXX_USE_CXX11_ABI := true |}.

(** A Linux x86-64 machine with Python 3.10 and torch 2.4.1 for CUDA 12.1;
    the release index cannot be reached and the artifact host answers 404. *)
Definition env : Env :=
  {| import_torch := Ok torch;
     sys_version_info := (3, 10);
     sys_platform := "linux";
     platform_machine := "x86_64";
     sys_executable := "/usr/bin/python3";
     release_index :=
       IndexFails (mkExc "URLError" "<urlopen error timed out>");
     head := fun _ => HeadHTTPError 404 "Not Found";
     which_uv := true;
     subprocess_run := fun _ => Ok 0%Z |}.

(** The same machine with another torch module. *)
Definition with_torch (t : TorchModule) : Env :=
  {| import_torch := Ok t;
     sys_version_info := sys_version_info env;
     sys_platform := sys_platform env;
     platform_machine := platform_machine env;
     sys_executable := sys_executable env;
     release_index := release_index env;
     head := head env;
     which_uv := which_uv env;
     subprocess_run := subprocess_run env |}.

(** torch 2.4.1 built for CUDA 12.4 and for CUDA 11.8. *)
Definition torch_cu124 : TorchModule :=
  {| __version__ := "2.4.1+cu124";
     version_cuda := Some "12.4";
     _GLIBCXX_USE_CXX11_ABI := true |}.

Definition torch_cu118 : TorchModule :=
  {| __version__ := "2.4.1+cu118";
     version_cuda := Some "11.8";
     _GLIBCXX_USE_CXX11_ABI := true |}.

(** The fingerprint of the specification's example, for a given
    [torch_version]. *)
Definition runtime (torch_version : string) : RuntimeInfo :=
  {| torch_version := torch_version;
     torch_major_minor := "2.4";
     torch_cuda := "12.1";
     python_tag := "cp310";
     cxx11abi := "TRUE";
     platform_tag := "linux_x86_64" |}.

(** The fingerprints gathered on [env] and on the CUDA 12.4 variant. *)
Definition runtime_cu121 : RuntimeInfo := runtime "2.4.1+cu121".

Definition runtime_cu124 : RuntimeInfo :=
  {| torch_version := "2.4.1+cu124";
     torch_major_minor := "2.4";
     torch_cuda := "12.4";
     python_tag := "cp310";
     cxx11abi := "TRUE";
     platform_tag := "linux_x86_64" |}.

(** Two records that are not gathered fingerprints: their tags contain
    dashes. *)
Definition odd_runtime_1 : RuntimeInfo :=
  {| torch_version := "2.4.1";
     torch_major_minor := "2.4";
     torch_cuda := "12.1";
     python_tag := "a";
     cxx11abi := "TRUE";
     platform_tag := "a-a-x" |}.

Definition odd_runtime_2 : RuntimeInfo :=
  {| torch_version := "2.4.1";
     torch_major_minor := "2.4";
     torch_cuda := "12.1";
     python_tag := "a-a";
     cxx11abi := "TRUE";
     platform_tag := "x" |}.

End Sample.

Module SampleInspector.

Import Inspector.

Definition torch : TorchModule :=
  {| __version__ := "2.4.1+cu121";
     version_cuda := Some "12.1";
     cuda_is_available := true |}.

(** A machine on which [nvcc] and [nvidia-smi] are missing, torch and
    flash_attn import, and the compiled extension does not load. *)
Definition env : Env :=
  {| sys_version := "3.10.14 (main, Mar 21 2024, 16:24:04) [GCC 11.2.0]";
     sys_executable := "/usr/bin/python3";
     sys_platform := "linux";
     environ_CUDA_HOME := None;
     check_output := fun cmd =>
       Raise (mkExc "FileNotFoundError"
                "[Errno 2] No such file or directory");
     import_torch := Ok torch;
     import_flash_attn := Ok {| flash_version := Some "2.8.3" |};
     import_flash_attn_2_cuda :=
       Raise (mkExc "ImportError"
                "flash_attn_2_cuda.so: undefined symbol: _ZN3c104cuda9SetDeviceEi");
     is_Exception := fun _ => true |}.

(** The same machine with probe commands that succeed and print nothing
    but a newline. *)
Definition blank_probes : Env :=
  {| sys_version := sys_version env;
     sys_executable := sys_executable env;
     sys_platform := sys_platform env;
     environ_CUDA_HOME := environ_CUDA_HOME env;
     check_output := fun cmd => Ok (String LF "");
     import_torch := import_torch env;
     import_flash_attn := import_flash_attn env;
     import_flash_attn_2_cuda := import_flash_attn_2_cuda env;
     is_Exception := is_Exception env |}.

End SampleInspector.

(* ================================================================== *)
(** ** Further notions *)

(** Kinds of events of an installer run. *)
Definition is_index_query (ev : Installer.Event) : bool :=
  match ev with Installer.EvIndexQuery _ _ => true | _ => false end.

Definition is_head (ev : Installer.Event) : bool :=
  match ev with Installer.EvHead _ _ => true | _ => false end.

Definition is_run (ev : Installer.Event) : bool :=
  match ev with Installer.EvRun _ => true | _ => false end.

Definition not_slash (c : ascii) : bool := negb (Ascii.eqb c "/").

(** The machine names the installer supports, after lower-casing. *)
Definition supported_machines : list string :=
  ["x86_64"; "amd64"; "aarch64"; "arm64"].

(** The tail every install command ends with. *)
Definition install_tail (wheel_url : string) : list string :=
  ["pip"; "install"; "--force-reinstall"; "--no-deps"; wheel_url].

Definition success_line : string :=
  "flash-attn looks ABI-compatible with this runtime.".

(** One string occurs in another. *)
Definition occurs_in (sub s : string) : Prop :=
  exists a b, s = a ++ sub ++ b.

(** A probe command succeeds and prints nothing but white space. *)
Definition prints_blank (env : Inspector.Env) (cmd : list string) : Prop :=
  exists output,
    Inspector.check_output env cmd = Ok output
    /\ all_chars is_space output = true.

(** A step raises an exception that is not an instance of [Exception]. *)
Definition escapes {A} (env : Inspector.Env) (r : result A) (exc : Exc) : Prop :=
  r = Raise exc /\ Inspector.is_Exception env exc = false.

(** The first import that does not succeed raises [exc], which is not an
    instance of [Exception]; the imports come in the order torch,
    flash_attn, flash_attn_2_cuda. *)
Definition import_escapes (env : Inspector.Env) (exc : Exc) : Prop :=
  escapes env (Inspector.import_torch env) exc
  \/ ((exists t, Inspector.import_torch env = Ok t)
      /\ (escapes env (Inspector.import_flash_attn env) exc
          \/ ((exists f, Inspector.import_flash_attn env = Ok f)
              /\ escapes env (Inspector.import_flash_attn_2_cuda env) exc))).

(** The exception with which a probe ends the inspector, if it does: the
    one the command raised, when [except Exception] does not catch it, or
    the [IndexError] of indexing the lines of a blank output. *)
Definition probe_end (env : Inspector.Env) (cmd : list string) : option Exc :=
  match Inspector.check_output env cmd with
  | Ok output => if all_chars is_space output then Some index_error else None
  | Raise exc => if Inspector.is_Exception env exc then None else Some exc
  end.

(** The exception with which the imports end the inspector, if they do:
    that of the first import that does not succeed, when it is not an
    instance of [Exception]. *)
Definition import_end (env : Inspector.Env) : option Exc :=
  let uncaught exc :=
    if Inspector.is_Exception env exc then None else Some exc in
  match Inspector.import_torch env with
  | Raise exc => uncaught exc
  | Ok _ =>
      match Inspector.import_flash_attn env with
      | Raise exc => uncaught exc
      | Ok _ =>
          match Inspector.import_flash_attn_2_cuda env with
          | Raise exc => uncaught exc
          | Ok _ => None
          end
      end
  end.

(** How the inspector is expected to end: the probes in their order, then
    the imports. *)
Definition expected_outcome (env : Inspector.Env) : result Z :=
  match probe_end env Inspector.nvcc_cmd with
  | Some exc => Raise exc
  | None =>
      match probe_end env Inspector.nvidia_smi_cmd with
      | Some exc => Raise exc
      | None =>
          match import_end env with
          | Some exc => Raise exc
          | None => Ok (diagnosis_code env)
          end
      end
  end.

Definition missing_line : string :=
  "Diagnosis: flash-attn is missing or not loadable in this environment.".

Module SampleOnline.

Import Installer.

(** The machine of [Sample.env] with a release index that names a release
    and an artifact host that has the wheel; the installer subprocess ends
    with status 0. *)
Definition env : Env :=
  {| import_torch := Ok Sample.torch;
     sys_version_info := (3, 10);
     sys_platform := "linux";
     platform_machine := "x86_64";
     sys_executable := "/usr/bin/python3";
     release_index := IndexObject (Some (TagStr "v2.8.3"));
     head := fun _ => HeadOk;
     which_uv := false;
     subprocess_run := fun _ => Ok 0%Z |}.

(** The same on macOS. *)
Definition darwin : Env :=
  {| import_torch := import_torch env;
     sys_version_info := sys_version_info env;
     sys_platform := "darwin";
     platform_machine := "arm64";
     sys_executable := sys_executable env;
     release_index := release_index env;
     head := head env;
     which_uv := which_uv env;
     subprocess_run := subprocess_run env |}.

Definition install_args : Args :=
  {| release_tag := Some "v2.8.3"; print_url := false; installer := auto |}.

Definition print_args : Args :=
  {| release_tag := None; print_url := true; installer := uv |}.

End SampleOnline.

Module SampleInspectorMore.

Import Inspector.

(** The machine of [SampleInspector.env] on which an import fails as
    given. *)
Definition with_imports (t : result TorchModule) (f : result FlashAttnModule)
    (x : result unit) : Env :=
  {| sys_version := sys_version SampleInspector.env;
     sys_executable := sys_executable SampleInspector.env;
     sys_platform := sys_platform SampleInspector.env;
     environ_CUDA_HOME := environ_CUDA_HOME SampleInspector.env;
     check_output := check_output SampleInspector.env;
     import_torch := t;
     import_flash_attn := f;
     import_flash_attn_2_cuda := x;
     is_Exception := is_Exception SampleInspector.env |}.

Definition no_module (name : string) : Exc :=
  mkExc "ModuleNotFoundError" ("No module named '" ++ name ++ "'").

Definition no_torch : Env :=
  with_imports (Raise (no_module "torch"))
    (Raise (no_module "flash_attn")) (Raise (no_module "flash_attn_2_cuda")).

Definition no_flash_attn : Env :=
  with_imports (Ok SampleInspector.torch)
    (Raise (no_module "flash_attn")) (Raise (no_module "flash_attn_2_cuda")).

Definition healthy : Env :=
  with_imports (Ok SampleInspector.torch)
    (Ok {| flash_version := None |}) (Ok tt).

(** A machine on which importing flash_attn calls [sys.exit(5)], and
    [SystemExit] is no instance of [Exception]. *)
Definition exiting : Env :=
  {| sys_version := sys_version SampleInspector.env;
     sys_executable := sys_executable SampleInspector.env;
     sys_platform := sys_platform SampleInspector.env;
     environ_CUDA_HOME := environ_CUDA_HOME SampleInspector.env;
     check_output := check_output SampleInspector.env;
     import_torch := Ok SampleInspector.torch;
     import_flash_attn := Raise (mkExc "SystemExit" "5");
     import_flash_attn_2_cuda := Ok tt;
     is_Exception := fun exc => negb (String.eqb (exc_type exc) "SystemExit") |}.

End SampleInspectorMore.

(* ================================================================== *)
(** ** Strings *)

Section StringFacts.

Lemma all_chars_app (p : ascii -> bool) (a b : string) :
  all_chars p (a ++ b) = all_chars p a && all_chars p b.
Proof.
  induction a as [|c a IH]; simpl; [reflexivity|].
  now rewrite IH, andb_assoc.
Qed.

Lemma append_inv_head (a b c : string) : a ++ b = a ++ c -> b = c.
Proof.
  induction a as [|x a IH]; simpl; intros H; [exact H|].
  injection H as H. now apply IH.
Qed.

Lemma append_assoc (a b c : string) : (a ++ b) ++ c = a ++ (b ++ c).
Proof.
  induction a as [|x a IH]; simpl; [reflexivity|]. now rewrite IH.
Qed.

Lemma startswith_append (a b : string) : startswith (a ++ b) a = true.
Proof.
  induction a as [|x a IH]; simpl; [reflexivity|].
  now rewrite Ascii.eqb_refl, IH.
Qed.

(** Two strings cut at the first character outside a class are cut at the
    same place. *)
Lemma append_split (p : ascii -> bool) (a b c d : string) :
  all_chars p a = true -> all_chars p b = true ->
  (forall x r, c = String x r -> p x = false) ->
  (forall x r, d = String x r -> p x = false) ->
  c <> "" -> d <> "" ->
  a ++ c = b ++ d -> a = b /\ c = d.
Proof.
  revert b. induction a as [|x a IH]; intros [|y b]; simpl;
    intros Ha Hb Hc Hd Nc Nd E.
  - now split.
  - apply andb_prop in Hb as [Hy _].
    rewrite (Hc _ _ E) in Hy. discriminate.
  - apply andb_prop in Ha as [Hx _].
    symmetry in E. rewrite (Hd _ _ E) in Hx. discriminate.
  - apply andb_prop in Ha as [_ Ha]. apply andb_prop in Hb as [_ Hb].
    injection E as -> E.
    destruct (IH b Ha Hb Hc Hd Nc Nd E) as [-> ->]. now split.
Qed.

Lemma span_digits_spec (s : string) :
  s = fst (span_digits s) ++ snd (span_digits s)
  /\ all_chars is_digit (fst (span_digits s)) = true
  /\ no_digit_next (snd (span_digits s)) = true.
Proof.
  induction s as [|c s IH]; simpl; [now repeat split|].
  destruct (is_digit c) eqn:Hc.
  - destruct (span_digits s) as [d r]; simpl in *.
    destruct IH as (E & A & N). rewrite Hc. repeat split; try assumption.
    now rewrite <- E.
  - simpl. rewrite Hc. now repeat split.
Qed.

Lemma span_digits_append (X rest : string) :
  all_chars is_digit X = true -> no_digit_next rest = true ->
  span_digits (X ++ rest) = (X, rest).
Proof.
  intros HX Hr. induction X as [|c X IH]; simpl in *.
  - destruct rest as [|c r]; [reflexivity|]. simpl in *.
    now destruct (is_digit c).
  - apply andb_prop in HX as [Hc HX]. rewrite Hc, (IH HX). reflexivity.
Qed.

(** A run of digits in front of any string is taken whole, together with
    the digits that follow it. *)
Lemma span_digits_extend (X rest : string) :
  all_chars is_digit X = true ->
  span_digits (X ++ rest)
  = (X ++ fst (span_digits rest), snd (span_digits rest)).
Proof.
  intros HX. induction X as [|c X IH]; simpl in *.
  - now destruct (span_digits rest).
  - apply andb_prop in HX as [Hc HX]. rewrite Hc, (IH HX). reflexivity.
Qed.

Lemma string_of_uint_digits (d : Decimal.uint) :
  all_chars is_digit (NilEmpty.string_of_uint d) = true.
Proof. induction d; simpl; auto. Qed.

Lemma str_of_nat_digits (n : nat) : all_chars is_digit (str_of_nat n) = true.
Proof. apply string_of_uint_digits. Qed.

Lemma all_chars_weaken (p q : ascii -> bool) (s : string) :
  (forall c, p c = true -> q c = true) ->
  all_chars p s = true -> all_chars q s = true.
Proof.
  intros W. induction s as [|c s IH]; simpl; [reflexivity|].
  intros H. apply andb_prop in H as [Hc Hs].
  now rewrite (W _ Hc), (IH Hs).
Qed.

Lemma major_of_12 (s : string) : startswith s "12." = true -> major_of s = "12".
Proof.
  destruct s as [|a [|b [|c s]]]; cbn; try discriminate.
  - now rewrite andb_false_r.
  - now rewrite !andb_false_r.
  - intros H. rewrite andb_true_r in H.
    apply andb_prop in H as [Ha H]. apply andb_prop in H as [Hb Hc].
    apply Ascii.eqb_eq in Ha, Hb, Hc. subst. reflexivity.
Qed.

End StringFacts.

(* ================================================================== *)
(** ** Runs *)

(** Case analysis on whatever a run branches on next: the innermost
    scrutinee that is not itself a case analysis. *)
Ltac branch :=
  match goal with
  | |- context [match ?x with _ => _ end] =>
      lazymatch x with
      | context [match _ with _ => _ end] => fail
      | _ => first [ is_var x; destruct x | destruct x eqn:? ]
      end
  end.

(* ================================================================== *)
(** ** The installer: version parsing *)

Section ParseVersion.

Import Installer.

Lemma re_match_complete (X Y rest : string) :
  digits X -> digits Y -> no_digit_next rest = true ->
  re_match_major_minor (X ++ "." ++ Y ++ rest) = Some (X, Y).
Proof.
  intros [NX HX] [NY HY] Hr. unfold re_match_major_minor.
  rewrite (span_digits_append X ("." ++ Y ++ rest) HX eq_refl).
  destruct X as [|x X]; [now elim NX|]. cbn [String.eqb].
  change ("." ++ Y ++ rest) with (String "." (Y ++ rest)). cbv iota beta.
  rewrite (span_digits_append Y rest HY Hr).
  destruct Y as [|y Y]; [now elim NY|]. reflexivity.
Qed.

Lemma re_match_sound (s g1 g2 : string) :
  re_match_major_minor s = Some (g1, g2) ->
  exists rest, digits g1 /\ digits g2 /\ no_digit_next rest = true
               /\ s = g1 ++ "." ++ g2 ++ rest.
Proof.
  unfold re_match_major_minor.
  destruct (span_digits_spec s) as (E1 & A1 & _).
  destruct (span_digits s) as [d1 r1]; simpl in E1, A1.
  destruct (String.eqb d1 "") eqn:N1; [discriminate|].
  destruct r1 as [|c r2]; [discriminate|].
  destruct (Ascii.eqb c ".") eqn:Hc.
  - apply Ascii.eqb_eq in Hc. subst c.
    destruct (span_digits_spec r2) as (E2 & A2 & R2).
    destruct (span_digits r2) as [d2 r3]; simpl in E2, A2, R2.
    destruct (String.eqb d2 "") eqn:N2; [discriminate|].
    intros H. injection H as <- <-. exists r3.
    apply String.eqb_neq in N1, N2.
    repeat split; try assumption.
    rewrite E1, E2. reflexivity.
  - intros H. exfalso.
    destruct c as [[] [] [] [] [] [] [] []]; try discriminate H.
    discriminate Hc.
Qed.

Lemma parse_ok_inv (s mm : string) :
  _parse_torch_major_minor s = Ok mm ->
  exists X Y rest, digits X /\ digits Y /\ no_digit_next rest = true
                   /\ s = X ++ "." ++ Y ++ rest /\ mm = X ++ "." ++ Y.
Proof.
  unfold _parse_torch_major_minor.
  destruct (re_match_major_minor s) as [[g1 g2]|] eqn:E; [|discriminate].
  intros H. injection H as <-.
  destruct (re_match_sound _ _ _ E) as (rest & D1 & D2 & R & ->).
  now exists g1, g2, rest.
Qed.

(** C4. The major.minor parser, on a version string [X.Y] followed by
    anything that does not go on with a digit (as in ["X.Y.Z..."]), returns
    ["X.Y"]; on any string that begins with digits, a dot and digits it
    returns such a prefix of the string; and on every string that does not
    begin so it raises the parse error instead of returning a value. *)
Theorem parse_torch_major_minor_spec (s : string) :
  (forall X Y rest,
      s = X ++ "." ++ Y ++ rest -> digits X -> digits Y ->
      no_digit_next rest = true ->
      _parse_torch_major_minor s = Ok (X ++ "." ++ Y))
  /\ (begins_with_major_minor s ->
      exists X Y rest,
        digits X /\ digits Y /\ s = X ++ "." ++ Y ++ rest
        /\ _parse_torch_major_minor s = Ok (X ++ "." ++ Y))
  /\ (~ begins_with_major_minor s ->
      _parse_torch_major_minor s
      = Raise (mkExc "RuntimeError" ("Unable to parse torch version: " ++ s))).
Proof.
  split; [|split].
  - intros X Y rest -> DX DY R. unfold _parse_torch_major_minor.
    now rewrite (re_match_complete X Y rest DX DY R).
  - intros (X & Y & rest & DX & DY & ->).
    destruct (span_digits_spec rest) as (E & A & R).
    set (d := fst (span_digits rest)) in *.
    set (r := snd (span_digits rest)) in *.
    assert (DY' : digits (Y ++ d)).
    { destruct DY as [NY HY]. split.
      - destruct Y; [now elim NY|discriminate].
      - now rewrite all_chars_app, HY, A. }
    exists X, (Y ++ d), r. split; [exact DX|]. split; [exact DY'|]. split.
    + now rewrite append_assoc, <- E.
    + rewrite E, <- (append_assoc Y d r). unfold _parse_torch_major_minor.
      now rewrite (re_match_complete X (Y ++ d) r DX DY' R).
  - intros N. unfold _parse_torch_major_minor.
    destruct (re_match_major_minor s) as [[g1 g2]|] eqn:E; [|reflexivity].
    exfalso. apply N.
    destruct (re_match_sound _ _ _ E) as (rest & D1 & D2 & _ & ->).
    now exists g1, g2, rest.
Qed.

Lemma not_begins_nightly : ~ begins_with_major_minor "nightly".
Proof.
  intros (X & Y & rest & [NX HX] & _ & E).
  destruct X as [|x X]; [now elim NX|].
  simpl in E, HX. injection E as <- _. discriminate HX.
Qed.

Lemma parse_torch_major_minor_spec_witness :
  _parse_torch_major_minor "2.4.1+cu121" = Ok "2.4"
  /\ _parse_torch_major_minor "nightly"
     = Raise (mkExc "RuntimeError" "Unable to parse torch version: nightly").
Proof.
  split.
  - apply (proj1 (parse_torch_major_minor_spec "2.4.1+cu121") "2" "4" ".1+cu121").
    + reflexivity.
    + split; [discriminate | reflexivity].
    + split; [discriminate | reflexivity].
    + reflexivity.
  - apply (proj2 (proj2 (parse_torch_major_minor_spec "nightly"))).
    exact not_begins_nightly.
Defined.

End ParseVersion.

(* ================================================================== *)
(** ** The installer: the runtime fingerprint and the wheel URL *)

Section Fingerprint.

Import Installer.

Lemma digit_is_digit_or_dot (c : ascii) : is_digit c = true -> digit_or_dot c = true.
Proof. unfold digit_or_dot. now intros ->. Qed.

Lemma digit_is_not_dash (c : ascii) : is_digit c = true -> not_dash c = true.
Proof.
  unfold not_dash. intros H.
  destruct (Ascii.eqb c "-") eqn:E; [|reflexivity].
  apply Ascii.eqb_eq in E. subst c. discriminate H.
Qed.

Lemma platform_tag_values (env : Env) (p : string) :
  _platform_tag env = Ok p -> p = "linux_x86_64" \/ p = "linux_aarch64".
Proof.
  unfold _platform_tag.
  destruct (negb (startswith (sys_platform env) "linux")); [discriminate|].
  destruct (mem_str _ ["x86_64"; "amd64"]);
    [intros H; injection H as <-; now left|].
  destruct (mem_str _ ["aarch64"; "arm64"]);
    [intros H; injection H as <-; now right|discriminate].
Qed.

(** Everything a gathered fingerprint owes to the environment. *)
Lemma gather_runtime_inv (env : Env) (rt : RuntimeInfo) :
  _gather_runtime env = Ok rt ->
  exists torch,
    import_torch env = Ok torch
    /\ torch_version rt = __version__ torch
    /\ _parse_torch_major_minor (__version__ torch) = Ok (torch_major_minor rt)
    /\ version_cuda torch = Some (torch_cuda rt)
    /\ torch_cuda rt <> ""
    /\ startswith (torch_cuda rt) "12." = true
    /\ python_tag rt = "cp" ++ str_of_nat (fst (sys_version_info env))
                            ++ str_of_nat (snd (sys_version_info env))
    /\ cxx11abi rt = (if _GLIBCXX_USE_CXX11_ABI torch then "TRUE" else "FALSE")
    /\ _platform_tag env = Ok (platform_tag rt).
Proof.
  unfold _gather_runtime.
  destruct (import_torch env) as [torch|e]; [|discriminate].
  destruct (_parse_torch_major_minor (__version__ torch)) as [mm|e] eqn:P;
    [|discriminate].
  cbn [rbind].
  destruct (version_cuda torch) as [cuda|] eqn:C; [|discriminate].
  destruct (String.eqb cuda "") eqn:N; [discriminate|].
  destruct (startswith cuda "12.") eqn:S; [|discriminate].
  cbn [negb].
  destruct (_platform_tag env) as [p|e] eqn:T; [|discriminate].
  cbn [rbind]. intros H. injection H as <-. cbn.
  exists torch. apply String.eqb_neq in N. repeat split; assumption.
Qed.

Lemma gathered_major_minor (rt : RuntimeInfo) :
  gathered rt -> all_chars digit_or_dot (torch_major_minor rt) = true.
Proof.
  intros [env G]. destruct (gather_runtime_inv _ _ G) as (t & _ & _ & P & _).
  destruct (parse_ok_inv _ _ P) as (X & Y & rest & [_ HX] & [_ HY] & _ & _ & ->).
  rewrite !all_chars_app.
  rewrite (all_chars_weaken _ _ _ digit_is_digit_or_dot HX).
  rewrite (all_chars_weaken _ _ _ digit_is_digit_or_dot HY).
  reflexivity.
Qed.

Lemma gathered_python_tag (rt : RuntimeInfo) :
  gathered rt -> all_chars not_dash (python_tag rt) = true.
Proof.
  intros [env G].
  destruct (gather_runtime_inv _ _ G) as (t & _ & _ & _ & _ & _ & _ & -> & _).
  rewrite !all_chars_app.
  rewrite (all_chars_weaken _ _ _ digit_is_not_dash (str_of_nat_digits _)).
  rewrite (all_chars_weaken _ _ _ digit_is_not_dash (str_of_nat_digits _)).
  reflexivity.
Qed.

Lemma gathered_cxx11abi (rt : RuntimeInfo) :
  gathered rt -> cxx11abi rt = "TRUE" \/ cxx11abi rt = "FALSE".
Proof.
  intros [env G].
  destruct (gather_runtime_inv _ _ G) as (t & _ & _ & _ & _ & _ & _ & _ & -> & _).
  destruct (_GLIBCXX_USE_CXX11_ABI t); [now left|now right].
Qed.

Lemma gathered_platform_tag (rt : RuntimeInfo) :
  gathered rt ->
  platform_tag rt = "linux_x86_64" \/ platform_tag rt = "linux_aarch64".
Proof.
  intros [env G].
  destruct (gather_runtime_inv _ _ G) as (t & _ & _ & _ & _ & _ & _ & _ & _ & T).
  exact (platform_tag_values _ _ T).
Qed.

(** C10. Every fingerprint that fingerprint gathering produces has
    [cxx11abi] equal to ["TRUE"] or ["FALSE"], a non-empty [torch_cuda]
    that starts with ["12."], a [torch_major_minor] of the form digits, dot,
    digits that is a prefix of [torch_version], a [python_tag] made of
    ["cp"] and the interpreter's major and minor numbers, and a
    [platform_tag] that is ["linux_x86_64"] or ["linux_aarch64"]. *)
Theorem gather_runtime_invariant (env : Env) (rt : RuntimeInfo) :
  _gather_runtime env = Ok rt ->
  (cxx11abi rt = "TRUE" \/ cxx11abi rt = "FALSE")
  /\ torch_cuda rt <> "" /\ startswith (torch_cuda rt) "12." = true
  /\ (exists X Y, digits X /\ digits Y /\ torch_major_minor rt = X ++ "." ++ Y)
  /\ startswith (torch_version rt) (torch_major_minor rt) = true
  /\ python_tag rt = "cp" ++ str_of_nat (fst (sys_version_info env))
                          ++ str_of_nat (snd (sys_version_info env))
  /\ (platform_tag rt = "linux_x86_64" \/ platform_tag rt = "linux_aarch64").
Proof.
  intros G.
  destruct (gather_runtime_inv _ _ G)
    as (t & _ & V & P & _ & N & S & Py & _ & _).
  destruct (parse_ok_inv _ _ P) as (X & Y & rest & DX & DY & _ & E & MM).
  split; [apply gathered_cxx11abi; now exists env|].
  split; [exact N|]. split; [exact S|].
  split; [now exists X, Y|].
  split.
  - rewrite V, E, MM.
    change (X ++ "." ++ Y ++ rest) with (X ++ String "." (Y ++ rest)).
    replace (X ++ String "." (Y ++ rest)) with ((X ++ "." ++ Y) ++ rest).
    + apply startswith_append.
    + now rewrite append_assoc.
  - split; [exact Py|]. apply gathered_platform_tag. now exists env.
Qed.

Lemma gather_runtime_invariant_witness :
  (cxx11abi Sample.runtime_cu121 = "TRUE"
   \/ cxx11abi Sample.runtime_cu121 = "FALSE")
  /\ torch_cuda Sample.runtime_cu121 <> ""
  /\ startswith (torch_cuda Sample.runtime_cu121) "12." = true
  /\ (exists X Y, digits X /\ digits Y
                  /\ torch_major_minor Sample.runtime_cu121 = X ++ "." ++ Y)
  /\ startswith (torch_version Sample.runtime_cu121)
                (torch_major_minor Sample.runtime_cu121) = true
  /\ python_tag Sample.runtime_cu121 = "cp" ++ str_of_nat 3 ++ str_of_nat 10
  /\ (platform_tag Sample.runtime_cu121 = "linux_x86_64"
      \/ platform_tag Sample.runtime_cu121 = "linux_aarch64").
Proof.
  apply (gather_runtime_invariant Sample.env Sample.runtime_cu121).
  reflexivity.
Defined.

(** *** The URL *)

(** C1, as the code has it.  For release tag ["v2.8.3"] and the fingerprint
    with [torch_major_minor = "2.4"], [torch_cuda = "12.1"],
    [python_tag = "cp310"], [cxx11abi = "TRUE"] and
    [platform_tag = "linux_x86_64"], whatever its [torch_version], the URL
    names the toolkit family [cu12], not the toolkit version [cu12.1]. *)
Theorem wheel_url_example (torch_version : string) :
  _wheel_url "v2.8.3" (Sample.runtime torch_version)
  = "https://github.com/Dao-AILab/flash-attention/releases/download/v2.8.3/flash_attn-2.8.3%2Bcu12torch2.4cxx11abiTRUE-cp310-cp310-linux_x86_64.whl".
Proof. reflexivity. Qed.

(** C1, as stated, fails: the URL of the specification's example, with
    [cu12.1] in it, is not the one the code builds. *)
Lemma wheel_url_example_not_as_stated :
  _wheel_url "v2.8.3" (Sample.runtime "2.4.1+cu121")
  <> "https://github.com/Dao-AILab/flash-attention/releases/download/v2.8.3/flash_attn-2.8.3%2Bcu12.1torch2.4cxx11abiTRUE-cp310-cp310-linux_x86_64.whl".
Proof.
  intros H. apply String.eqb_eq in H. vm_compute in H. discriminate H.
Qed.

Lemma wheel_url_fields (tag : string) (r1 r2 : RuntimeInfo) :
  torch_major_minor r1 = torch_major_minor r2 ->
  cxx11abi r1 = cxx11abi r2 ->
  python_tag r1 = python_tag r2 ->
  platform_tag r1 = platform_tag r2 ->
  _wheel_url tag r1 = _wheel_url tag r2.
Proof. unfold _wheel_url. now intros -> -> -> ->. Qed.

Lemma wheel_url_injective (tag : string) (r1 r2 : RuntimeInfo) :
  gathered r1 -> gathered r2 ->
  _wheel_url tag r1 = _wheel_url tag r2 ->
  torch_major_minor r1 = torch_major_minor r2
  /\ cxx11abi r1 = cxx11abi r2
  /\ python_tag r1 = python_tag r2
  /\ platform_tag r1 = platform_tag r2.
Proof.
  intros G1 G2 H. unfold _wheel_url in H.
  do 8 apply append_inv_head in H.
  apply (append_split digit_or_dot) in H;
    [ | now apply gathered_major_minor | now apply gathered_major_minor
      | intros x r E; injection E as <- _; reflexivity
      | intros x r E; injection E as <- _; reflexivity
      | discriminate | discriminate ].
  destruct H as [MM H]. apply append_inv_head in H.
  assert (A : cxx11abi r1 = cxx11abi r2
              /\ python_tag r1 ++ "-" ++ python_tag r1 ++ "-"
                   ++ platform_tag r1 ++ ".whl"
                 = python_tag r2 ++ "-" ++ python_tag r2 ++ "-"
                   ++ platform_tag r2 ++ ".whl").
  { destruct (gathered_cxx11abi _ G1) as [E1|E1],
             (gathered_cxx11abi _ G2) as [E2|E2];
      rewrite E1, E2 in *; try (simpl in H; discriminate H);
      (split; [reflexivity|]); now do 2 apply append_inv_head in H. }
  destruct A as [A H'].
  apply (append_split not_dash) in H';
    [ | now apply gathered_python_tag | now apply gathered_python_tag
      | intros x r E; injection E as <- _; reflexivity
      | intros x r E; injection E as <- _; reflexivity
      | discriminate | discriminate ].
  destruct H' as [Py H']. rewrite Py in H'.
  do 3 apply append_inv_head in H'.
  repeat split; try assumption.
  destruct (gathered_platform_tag _ G1) as [E1|E1],
           (gathered_platform_tag _ G2) as [E2|E2];
    rewrite E1, E2 in *; try reflexivity; simpl in H'; discriminate H'.
Qed.

(** C2, as the code has it.  For every release tag and every two
    fingerprints that fingerprint gathering can produce, the URLs are equal
    exactly when the fingerprints agree on [torch_major_minor], [cxx11abi],
    [python_tag] and [platform_tag]: a difference in one of these four
    fields gives different URLs, and [torch_version] and [torch_cuda] do
    not enter the URL. *)
Theorem wheel_url_distinguishes (tag : string) (r1 r2 : RuntimeInfo) :
  gathered r1 -> gathered r2 ->
  (_wheel_url tag r1 = _wheel_url tag r2 <->
   torch_major_minor r1 = torch_major_minor r2
   /\ cxx11abi r1 = cxx11abi r2
   /\ python_tag r1 = python_tag r2
   /\ platform_tag r1 = platform_tag r2).
Proof.
  intros G1 G2. split.
  - now apply wheel_url_injective.
  - intros (A & B & C & D). now apply wheel_url_fields.
Qed.

Lemma gathered_cu121 : gathered Sample.runtime_cu121.
Proof. exists Sample.env. reflexivity. Qed.

Lemma gathered_cu124 : gathered Sample.runtime_cu124.
Proof. exists (Sample.with_torch Sample.torch_cu124). reflexivity. Qed.

Lemma wheel_url_distinguishes_witness :
  _wheel_url "v2.8.3" Sample.runtime_cu121
  = _wheel_url "v2.8.3" Sample.runtime_cu124 <->
  torch_major_minor Sample.runtime_cu121 = torch_major_minor Sample.runtime_cu124
  /\ cxx11abi Sample.runtime_cu121 = cxx11abi Sample.runtime_cu124
  /\ python_tag Sample.runtime_cu121 = python_tag Sample.runtime_cu124
  /\ platform_tag Sample.runtime_cu121 = platform_tag Sample.runtime_cu124.
Proof.
  apply (wheel_url_distinguishes "v2.8.3" Sample.runtime_cu121
           Sample.runtime_cu124).
  - exists Sample.env. reflexivity.
  - exists (Sample.with_torch Sample.torch_cu124). reflexivity.
Defined.

(** C2, as stated, fails: two gathered fingerprints that differ in
    [torch_version] and in [torch_cuda] have the same URL. *)
Lemma wheel_url_aliases :
  gathered Sample.runtime_cu121 /\ gathered Sample.runtime_cu124
  /\ torch_version Sample.runtime_cu121 <> torch_version Sample.runtime_cu124
  /\ torch_cuda Sample.runtime_cu121 <> torch_cuda Sample.runtime_cu124
  /\ _wheel_url "v2.8.3" Sample.runtime_cu121
     = _wheel_url "v2.8.3" Sample.runtime_cu124.
Proof.
  split; [exact gathered_cu121|]. split; [exact gathered_cu124|].
  split; [discriminate|]. split; [discriminate|]. reflexivity.
Qed.

(** Outside the gathered fingerprints even the four fields of the file name
    can alias: dashes in the tags move the field boundaries. *)
Lemma wheel_url_aliases_ungathered :
  python_tag Sample.odd_runtime_1 <> python_tag Sample.odd_runtime_2
  /\ platform_tag Sample.odd_runtime_1 <> platform_tag Sample.odd_runtime_2
  /\ _wheel_url "v2.8.3" Sample.odd_runtime_1
     = _wheel_url "v2.8.3" Sample.odd_runtime_2.
Proof. split; [discriminate|]. split; [discriminate|]. reflexivity. Qed.

End Fingerprint.

(* ================================================================== *)
(** ** The installer: the run *)

Section InstallerRun.

Import Installer.

Ltac run_main :=
  unfold main, resolve_release_tag, _wheel_exists, _get_latest_release_tag,
    try_except, print, bind, lift, emit, ret, raise, trace, outcome.

Ltac run_cbn :=
  cbn -[append _wheel_url _install_cmd no_attribute http_error Nat.eqb].

Ltac absurd_event :=
  repeat match goal with
         | H : In _ _ |- _ => cbn [In app] in H
         | H : _ \/ _ |- _ => destruct H
         | H : False |- _ => elim H
         | H : EvPrint _ = _ |- _ => discriminate H
         | H : EvIndexQuery _ _ = _ |- _ => discriminate H
         | H : EvRun _ = _ |- _ => discriminate H
         | H : EvHead _ _ = _ |- _ => try discriminate H; injection H as <- <-
         end.

Lemma main_gather_fails (env : Env) (args : Args) (e : Exc) :
  _gather_runtime env = Raise e -> main env args = ([], Raise e).
Proof. intros G. unfold main. now rewrite G. Qed.

Ltac head_facts :=
  repeat match goal with
         | H : HeadHTTPError _ _ = HeadHTTPError _ _ |- _ =>
             injection H as ? ?; subst
         | H : HeadError _ = HeadError _ |- _ => injection H as ?; subst
         | H : (_ =? _) = true |- _ => apply Nat.eqb_eq in H
         | H : (_ =? _) = false |- _ => apply Nat.eqb_neq in H
         end.

(** C6. In the installer, whenever the artifact-existence check observes
    an HTTP 404 answer, which can only be the answer to the constructed
    URL, the process exits with status 2 and no installer subprocess is
    run; when it observes any other failure, an [HTTPError] with another
    status or another exception, that exception ends the process
    uncaught. *)
Theorem wheel_not_found_exits_2 (env : Env) (args : Args)
    (url : string) (r : HeadResponse) :
  In (EvHead url r) (trace (main env args)) ->
  r = head env url
  /\ (exists t rt, _gather_runtime env = Ok rt /\ url = _wheel_url t rt)
  /\ (forall reason, r = HeadHTTPError 404 reason ->
        outcome (main env args) = Ok 2%Z
        /\ forall cmd, ~ In (EvRun cmd) (trace (main env args)))
  /\ (forall status reason, r = HeadHTTPError status reason -> status <> 404 ->
        outcome (main env args) = Raise (http_error status reason))
  /\ (forall e, r = HeadError e -> outcome (main env args) = Raise e).
Proof.
  run_main.
  destruct (_gather_runtime env) as [rt|e] eqn:G; run_cbn; [|intros []].
  repeat (branch; run_cbn).
  all: intros H; absurd_event.
  all: split; [congruence|]; split; [eauto|]; split; [|split];
    intros; try discriminate; head_facts; try congruence.
  all: split; [reflexivity|]; intros cmd Hin; absurd_event.
Qed.

Lemma wheel_not_found_exits_2_witness :
  let url := _wheel_url "v2.8.3" Sample.runtime_cu121 in
  outcome (main Sample.env (mkArgs None false auto)) = Ok 2%Z
  /\ forall cmd,
       ~ In (EvRun cmd) (trace (main Sample.env (mkArgs None false auto))).
Proof.
  intros url.
  apply (proj1 (proj2 (proj2
    (wheel_not_found_exits_2 Sample.env (mkArgs None false auto) url
       (HeadHTTPError 404 "Not Found")
       ltac:(vm_compute; tauto)))) "Not Found").
  reflexivity.
Defined.

(** Why the query for the latest release fails: the request or the
    decoding raised, the payload is not an object, or it has no usable
    ["tag_name"]. *)
Lemma get_latest_release_tag_failures (env : Env) :
  (forall e, release_index env = IndexFails e ->
     outcome (_get_latest_release_tag env) = Raise e)
  /\ (forall ty, release_index env = IndexNotObject ty ->
     outcome (_get_latest_release_tag env) = Raise (no_attribute ty "get"))
  /\ (release_index env = IndexObject None ->
     outcome (_get_latest_release_tag env)
     = Raise (mkExc "RuntimeError"
                "GitHub API response did not include tag_name."))
  /\ (forall v, release_index env = IndexObject (Some v) ->
     tag_truthy v = false ->
     outcome (_get_latest_release_tag env)
     = Raise (mkExc "RuntimeError"
                "GitHub API response did not include tag_name.")).
Proof.
  unfold _get_latest_release_tag. repeat split.
  - now intros e ->.
  - now intros ty ->.
  - now intros ->.
  - now intros v -> ->.
Qed.



(** A query that succeeds is not covered by the fallback: a ["tag_name"]
    that is true but not a string is returned as it is, and building the URL
    from it raises. *)
Lemma non_string_tag_raises (env : Env) (args : Args) (rt : RuntimeInfo)
    (ty shown : string) :
  _gather_runtime env = Ok rt ->
  release_tag args = None ->
  release_index env = IndexObject (Some (TagOther ty shown true)) ->
  outcome (main env args) = Raise (no_attribute ty "lstrip").
Proof.
  intros G A I. run_main. now rewrite G, A, I.
Qed.

(** C8. In the installer, for every runtime whose CUDA version string has
    a major version other than ["12"], fingerprint gathering raises, the
    exception ends [main], and nothing has happened by then: no URL was
    printed or requested. *)
Theorem unsupported_cuda_major (env : Env) (args : Args) (t : TorchModule) :
  import_torch env = Ok t ->
  major_of (cuda_or_empty t) <> "12" ->
  exists e, _gather_runtime env = Raise e /\ main env args = ([], Raise e).
Proof.
  intros I N.
  assert (G : exists e, _gather_runtime env = Raise e).
  { unfold _gather_runtime. rewrite I.
    destruct (_parse_torch_major_minor (__version__ t)) as [mm|e];
      [|now exists e].
    cbn [rbind]. fold (cuda_or_empty t).
    destruct (String.eqb (cuda_or_empty t) ""); [eauto|].
    destruct (startswith (cuda_or_empty t) "12.") eqn:S; [|cbn; eauto].
    elim N. now apply major_of_12. }
  destruct G as [e G]. exists e. split; [exact G|].
  now apply main_gather_fails.
Qed.

Lemma unsupported_cuda_major_witness :
  exists e,
    _gather_runtime (Sample.with_torch Sample.torch_cu118) = Raise e
    /\ main (Sample.with_torch Sample.torch_cu118) (mkArgs None false auto)
       = ([], Raise e).
Proof.
  apply (unsupported_cuda_major (Sample.with_torch Sample.torch_cu118)
           (mkArgs None false auto) Sample.torch_cu118).
  - reflexivity.
  - vm_compute. discriminate.
Defined.

Lemma gather_set_release_index (r : IndexResponse) (env : Env) :
  _gather_runtime (set_release_index r env) = _gather_runtime env.
Proof. reflexivity. Qed.

(** C9. In the installer, whenever a release tag is supplied on the
    command line, it is the resolved tag, verbatim; the release index is not
    queried; and the whole run, with the URL it builds from the supplied
    tag, is the same whatever the release index would have answered. *)
Theorem explicit_tag_ignores_index (env : Env) (args : Args) (t : string)
    (r1 r2 : IndexResponse) :
  release_tag args = Some t ->
  resolve_release_tag (set_release_index r1 env) args = ([], Ok (TagStr t))
  /\ main (set_release_index r1 env) args = main (set_release_index r2 env) args
  /\ (forall url r,
        ~ In (EvIndexQuery url r) (trace (main (set_release_index r1 env) args)))
  /\ (forall rt, _gather_runtime env = Ok rt ->
        exists rest,
          trace (main (set_release_index r1 env) args)
          = ([EvPrint ("torch=" ++ torch_version rt ++ " cuda="
                       ++ torch_cuda rt ++ " python=" ++ python_tag rt);
              EvPrint ("Resolved wheel: " ++ _wheel_url t rt);
              EvHead (_wheel_url t rt) (head env (_wheel_url t rt))]
             ++ rest)%list).
Proof.
  intros A.
  assert (R : forall r, resolve_release_tag (set_release_index r env) args
                        = ([], Ok (TagStr t))).
  { intros r. unfold resolve_release_tag. now rewrite A. }
  split; [apply R|]. split; [|split].
  - unfold main. rewrite !R, !gather_set_release_index. reflexivity.
  - intros url r. unfold main.
    rewrite R, gather_set_release_index.
    unfold _wheel_exists, print, bind, lift, emit, ret, raise, trace.
    destruct (_gather_runtime env) as [rt|e]; run_cbn; [|intros []].
    repeat (branch; run_cbn); intros H; absurd_event.
  - intros rt G. unfold main.
    rewrite R, gather_set_release_index, G.
    unfold _wheel_exists, print, bind, lift, emit, ret, raise, trace.
    run_cbn. repeat (branch; run_cbn); eexists; reflexivity.
Qed.

Lemma explicit_tag_ignores_index_witness :
  main (set_release_index (IndexObject (Some (TagStr "v9.9.9"))) Sample.env)
       (mkArgs (Some "v2.7.0") true pip)
  = main (set_release_index (IndexNotObject "list") Sample.env)
         (mkArgs (Some "v2.7.0") true pip).
Proof.
  apply (explicit_tag_ignores_index Sample.env
           (mkArgs (Some "v2.7.0") true pip) "v2.7.0"
           (IndexObject (Some (TagStr "v9.9.9"))) (IndexNotObject "list")).
  reflexivity.
Defined.

End InstallerRun.

(* ================================================================== *)
(** ** The inspector *)

Section InspectorRun.

Import Inspector.

Ltac run_main :=
  unfold main, _print_runtime, _cmd_output, _try_import, attr,
    print, bind, lift, emit, ret, raise, trace, outcome.

Ltac run_cbn :=
  cbn -[append contains strip splitlines item_last item_first replace_char
        abi_diagnosis fix_line command_line nvcc_cmd nvidia_smi_cmd].

Ltac absurd_event :=
  repeat match goal with
         | H : In _ _ |- _ => cbn [In app] in H
         | H : _ \/ _ |- _ => destruct H
         | H : False |- _ => elim H
         | H : EvPrint _ = _ |- _ => discriminate H
         | H : EvProbe _ _ = _ |- _ => discriminate H
         | H : EvImportEscaped _ _ = _ |- _ => discriminate H
         | H : EvImport _ _ = _ |- _ => try discriminate H; injection H as <-
         end.

Ltac in_trace := cbn [In]; repeat first [ left; reflexivity | right ].

Lemma splitlines_nonempty (s : string) : s <> "" -> splitlines s <> [].
Proof.
  destruct s as [|c s]; [now intros N|]. intros _.
  unfold splitlines. cbn [splitlines_from andb].
  destruct (is_linebreak c); [discriminate|].
  destruct (splitlines_from false s); discriminate.
Qed.

Lemma item_last_ok {A} (l : list A) : l <> [] -> exists x, item_last l = Ok x.
Proof.
  induction l as [|a l IH]; [now intros N|]. intros _.
  destruct l as [|b l]; [now exists a|].
  destruct IH as [x E]; [discriminate|]. now exists x.
Qed.

Lemma item_first_ok {A} (l : list A) : l <> [] -> exists x, item_first l = Ok x.
Proof. destruct l as [|a l]; [now intros N|]. now exists a. Qed.

(** A probe command that fails is shown as a non-empty text. *)
Lemma failed_probe_text (env : Env) (cmd : list string) (e : Exc) :
  check_output env cmd = Raise e -> probe_text env cmd <> "".
Proof. unfold probe_text. intros ->. discriminate. Qed.

(** When both probes show something and every exception is an instance of
    [Exception], the inspector ends with the exit code of the taxonomy. *)
Lemma inspector_exit_codes (env : Env) :
  probe_text env nvcc_cmd <> "" ->
  probe_text env nvidia_smi_cmd <> "" ->
  (forall exc, is_Exception env exc = true) ->
  outcome (main env) = Ok (diagnosis_code env).
Proof.
  intros Hn Hs HE.
  destruct (item_last_ok _ (splitlines_nonempty _ Hn)) as [l1 E1].
  destruct (item_first_ok _ (splitlines_nonempty _ Hs)) as [l2 E2].
  unfold probe_text in E1, E2. unfold diagnosis_code. run_main.
  destruct (check_output env nvcc_cmd);
    destruct (check_output env nvidia_smi_cmd);
    rewrite ?HE; run_cbn; rewrite E1; run_cbn; rewrite E2; run_cbn;
    repeat (branch; run_cbn; rewrite ?HE; run_cbn); reflexivity.
Qed.

(** A probe command that succeeds and prints nothing but white space ends
    the inspector with an uncaught [IndexError]. *)
Lemma blank_nvcc_crashes (env : Env) (output : string) :
  check_output env nvcc_cmd = Ok output -> strip output = "" ->
  outcome (main env) = Raise index_error.
Proof.
  intros E B. run_main. rewrite E. run_cbn. rewrite B. reflexivity.
Qed.

(** C3, at an environment where the claim fails: both probe commands
    succeed and print a single newline; the inspector prints its first
    four lines, runs [nvcc], and ends with an uncaught [IndexError] before
    any import is tried. *)
Theorem inspector_blank_probe_crashes :
  outcome (main SampleInspector.blank_probes) = Raise index_error
  /\ forall name failure,
       ~ In (EvImport name failure) (trace (main SampleInspector.blank_probes)).
Proof.
  split; [reflexivity|].
  intros name failure H. vm_compute in H. absurd_event.
Qed.

Lemma contains_occurs (sub s : string) :
  occurs_in sub s -> contains sub s = true.
Proof.
  intros (a & b & ->). induction a as [|c a IH].
  - cbn [append]. destruct (sub ++ b) eqn:E; cbn [contains];
      rewrite <- E, startswith_append; reflexivity.
  - cbn [append contains]. rewrite IH. apply orb_true_r.
Qed.

(** The run after a failed import of the compiled extension, in the
    inspector's own terms. *)
Lemma extension_failure_run (env : Env) (e : Exc) :
  In (EvImport "flash_attn_2_cuda" (Some e)) (trace (main env)) ->
  outcome (main env) = Ok 3%Z
  /\ (contains "undefined symbol" (exc_msg e) = true ->
      exists t,
        import_torch env = Ok t
        /\ In (EvPrint (abi_diagnosis (__version__ t)
                          (str_of_opt (version_cuda t))))
              (trace (main env))
        /\ In (EvPrint fix_line) (trace (main env))
        /\ In (EvPrint command_line) (trace (main env))).
Proof.
  run_main. repeat (branch; run_cbn).
  all: intros H; absurd_event.
  all: split; [reflexivity|]; intros U; try congruence.
  all: eexists; split; [reflexivity|]; cbn [In]; tauto.
Qed.

(** C5. In the inspector, whenever the import of the compiled extension
    fails, the exit code is 3; and when, besides, ["undefined symbol"]
    occurs in the message of the exception, the ABI-mismatch diagnosis with
    the version and the CUDA version of the imported torch, the fix and the
    remediation command are printed. *)
Theorem extension_failure_exits_3 (env : Env) (e : Exc) :
  In (EvImport "flash_attn_2_cuda" (Some e)) (trace (main env)) ->
  outcome (main env) = Ok 3%Z
  /\ (occurs_in "undefined symbol" (exc_msg e) ->
      exists t,
        import_torch env = Ok t
        /\ In (EvPrint
                ("Diagnosis: ABI mismatch. flash-attn was built against a different PyTorch/CUDA runtime than the current one (torch="
                 ++ __version__ t ++ ", cuda="
                 ++ match version_cuda t with Some c => c | None => "None" end
                 ++ ")."))
              (trace (main env))
        /\ In (EvPrint
                "Fix: reinstall flash-attn in this exact env after torch is finalized.")
              (trace (main env))
        /\ In (EvPrint
                "Command: uv run python scripts/install_prebuilt_flash_attn.py")
              (trace (main env))).
Proof.
  intros H. destruct (extension_failure_run env e H) as (O & D).
  split; [exact O|]. intros U.
  destruct (D (contains_occurs _ _ U)) as (t & I & A & F & C).
  exists t. split; [exact I|]. split; [exact A|]. split; [exact F|exact C].
Qed.

Lemma extension_failure_exits_3_witness :
  outcome (main SampleInspector.env) = Ok 3%Z
  /\ In (EvPrint
          "Diagnosis: ABI mismatch. flash-attn was built against a different PyTorch/CUDA runtime than the current one (torch=2.4.1+cu121, cuda=12.1).")
        (trace (main SampleInspector.env))
  /\ In (EvPrint
          "Command: uv run python scripts/install_prebuilt_flash_attn.py")
        (trace (main SampleInspector.env)).
Proof.
  destruct (extension_failure_exits_3 SampleInspector.env
              (mkExc "ImportError"
                 "flash_attn_2_cuda.so: undefined symbol: _ZN3c104cuda9SetDeviceEi")
              ltac:(vm_compute; tauto))
    as (O & D).
  destruct (D (ex_intro _ "flash_attn_2_cuda.so: "
                 (ex_intro _ ": _ZN3c104cuda9SetDeviceEi" eq_refl)))
    as (t & I & A & _ & C).
  injection I as <-.
  exact (conj O (conj A C)).
Defined.

End InspectorRun.

(* ================================================================== *)
(** ** More on the installer *)

Ltac installer_unfold :=
  unfold Installer.main, Installer.resolve_release_tag,
    Installer._wheel_exists, Installer._get_latest_release_tag,
    try_except, Installer.print, bind, lift, emit, ret, raise, trace, outcome.

Ltac installer_cbn :=
  cbn -[append Installer._wheel_url Installer._install_cmd
        Installer.no_attribute Installer.http_error Nat.eqb].

Ltac installer_events :=
  repeat match goal with
         | H : In _ _ |- _ => cbn [In app] in H
         | H : _ \/ _ |- _ => destruct H
         | H : False |- _ => elim H
         | H : @eq Installer.Event _ _ |- _ =>
             first [ discriminate H | inversion H; subst; clear H ]
         end.

Section InstallerMore.

Import Installer.

Lemma append_nil_r (s : string) : s ++ "" = s.
Proof. induction s as [|c s IH]; simpl; [reflexivity|now rewrite IH]. Qed.

Lemma parse_begins (s : string) :
  begins_with_major_minor s -> exists mm, _parse_torch_major_minor s = Ok mm.
Proof.
  intros (X & Y & rest & DX & [NY HY] & ->).
  destruct (span_digits_spec rest) as (E & A & R).
  assert (DY' : digits (Y ++ fst (span_digits rest))).
  { split.
    - destruct Y; [now elim NY|discriminate].
    - now rewrite all_chars_app, HY, A. }
  exists (X ++ "." ++ Y ++ fst (span_digits rest)).
  rewrite E at 1. rewrite <- (append_assoc Y).
  unfold _parse_torch_major_minor.
  now rewrite (re_match_complete X _ _ DX DY' R).
Qed.

(** X1. Parsing the result of the major.minor parser gives it back: a
    value the parser returns is itself a version string it accepts
    unchanged. *)
Theorem parse_torch_major_minor_idempotent (s mm : string) :
  _parse_torch_major_minor s = Ok mm -> _parse_torch_major_minor mm = Ok mm.
Proof.
  intros P.
  destruct (parse_ok_inv _ _ P) as (X & Y & rest & DX & DY & _ & _ & ->).
  unfold _parse_torch_major_minor.
  rewrite <- (append_nil_r Y) at 1.
  now rewrite (re_match_complete X Y "" DX DY eq_refl).
Qed.

Lemma parse_torch_major_minor_idempotent_witness :
  _parse_torch_major_minor "2.4" = Ok "2.4".
Proof.
  apply (parse_torch_major_minor_idempotent "2.4.1+cu121" "2.4").
  reflexivity.
Defined.

Lemma platform_tag_ok (env : Env) :
  (exists p, _platform_tag env = Ok p) <->
  startswith (sys_platform env) "linux" = true
  /\ mem_str (lower (platform_machine env)) supported_machines = true.
Proof.
  unfold _platform_tag, supported_machines, mem_str. cbn [existsb].
  destruct (startswith (sys_platform env) "linux"); cbn [negb].
  - destruct (String.eqb (lower (platform_machine env)) "x86_64");
      destruct (String.eqb (lower (platform_machine env)) "amd64");
      destruct (String.eqb (lower (platform_machine env)) "aarch64");
      destruct (String.eqb (lower (platform_machine env)) "arm64");
      cbn; split; try (intros _; split; [reflexivity|reflexivity]);
      try (intros _; eexists; reflexivity);
      try (intros [p H]; discriminate H);
      try (intros [_ H]; discriminate H).
  - split; [intros [p H]; discriminate H|intros [H _]; discriminate H].
Qed.

Lemma gather_ok_platform (env : Env) (rt : RuntimeInfo) :
  _gather_runtime env = Ok rt ->
  startswith (sys_platform env) "linux" = true
  /\ mem_str (lower (platform_machine env)) supported_machines = true.
Proof.
  intros G.
  destruct (gather_runtime_inv _ _ G) as (t & _ & _ & _ & _ & _ & _ & _ & _ & T).
  apply platform_tag_ok. now exists (platform_tag rt).
Qed.

(** X2. Fingerprint gathering succeeds exactly when torch imports, its
    version begins with digits, a dot and digits, its CUDA version starts
    with ["12."], the platform starts with ["linux"] and the machine name
    is, whatever its case, one of x86_64, amd64, aarch64 and arm64. *)
Theorem gather_runtime_succeeds_iff (env : Env) :
  (exists rt, _gather_runtime env = Ok rt) <->
  (exists t,
      import_torch env = Ok t
      /\ begins_with_major_minor (__version__ t)
      /\ startswith (cuda_or_empty t) "12." = true
      /\ startswith (sys_platform env) "linux" = true
      /\ mem_str (lower (platform_machine env)) supported_machines = true).
Proof.
  split.
  - intros [rt G].
    destruct (gather_runtime_inv _ _ G)
      as (t & I & _ & P & C & _ & S & _ & _ & T).
    exists t. split; [exact I|].
    destruct (parse_ok_inv _ _ P) as (X & Y & rest & DX & DY & _ & E & _).
    split; [now exists X, Y, rest|].
    split; [unfold cuda_or_empty; now rewrite C|].
    exact (gather_ok_platform _ _ G).
  - intros (t & I & B & S & L & Mc).
    destruct (parse_begins _ B) as [mm P].
    destruct (proj2 (platform_tag_ok env) (conj L Mc)) as [p T].
    unfold _gather_runtime. rewrite I, P. cbn [rbind].
    fold (cuda_or_empty t). rewrite S.
    destruct (cuda_or_empty t) as [|c r]; [discriminate S|].
    cbn [String.eqb negb]. rewrite T. cbn [rbind]. eexists. reflexivity.
Qed.

(** X3. On a platform that does not start with ["linux"], or on a machine
    that is none of the four supported ones, the installer ends with an
    exception before it prints, queries or requests anything. *)
Theorem unsupported_platform_stops (env : Env) (args : Args) :
  startswith (sys_platform env) "linux" = false
  \/ mem_str (lower (platform_machine env)) supported_machines = false ->
  exists e, _gather_runtime env = Raise e /\ main env args = ([], Raise e).
Proof.
  intros U.
  destruct (_gather_runtime env) as [rt|e] eqn:G.
  - exfalso.
    destruct (gather_ok_platform _ _ G) as (L & Mc).
    destruct U as [U|U]; congruence.
  - exists e. split; [reflexivity|]. now apply main_gather_fails.
Qed.

Lemma unsupported_platform_stops_witness :
  exists e,
    _gather_runtime SampleOnline.darwin = Raise e
    /\ main SampleOnline.darwin SampleOnline.install_args = ([], Raise e).
Proof.
  apply (unsupported_platform_stops SampleOnline.darwin
           SampleOnline.install_args).
  left. reflexivity.
Defined.

End InstallerMore.

Section InstallerRunMore.

Import Installer.

Lemma install_cmd_tail (env : Env) (i : InstallerChoice) (url : string) :
  exists pre, _install_cmd env i url = (pre ++ install_tail url)%list.
Proof.
  unfold _install_cmd, install_tail.
  destruct i; [destruct (which_uv env)| |].
  - now exists ["uv"].
  - now exists [sys_executable env; "-m"].
  - now exists ["uv"].
  - now exists [sys_executable env; "-m"].
Qed.

(** X4. With [--print-url] the installer never runs an installer
    subprocess, whatever backend is selected; when it returns, the status is
    0 or 2, and it is 0 as soon as the artifact host has the wheel. *)
Theorem print_url_never_installs (env : Env) (args : Args) :
  print_url args = true ->
  (forall cmd, ~ In (EvRun cmd) (trace (main env args)))
  /\ (forall c, outcome (main env args) = Ok c -> c = 0%Z \/ c = 2%Z)
  /\ (forall url, In (EvHead url HeadOk) (trace (main env args)) ->
        outcome (main env args) = Ok 0%Z).
Proof.
  intros P. installer_unfold. rewrite P.
  destruct (_gather_runtime env) as [rt|e]; installer_cbn.
  2: { repeat split; [intros cmd []|intros c H; discriminate H|intros url []]. }
  repeat (branch; installer_cbn).
  all: split; [intros cmd H; installer_events|].
  all: split; [intros c H; first [discriminate H | injection H as <-; tauto]|].
  all: intros url H; installer_events; try reflexivity; try congruence.
Qed.

Lemma print_url_never_installs_witness :
  (forall cmd,
      ~ In (EvRun cmd) (trace (main SampleOnline.env SampleOnline.print_args)))
  /\ (forall c, outcome (main SampleOnline.env SampleOnline.print_args) = Ok c ->
        c = 0%Z \/ c = 2%Z)
  /\ (forall url,
        In (EvHead url HeadOk)
           (trace (main SampleOnline.env SampleOnline.print_args)) ->
        outcome (main SampleOnline.env SampleOnline.print_args) = Ok 0%Z).
Proof.
  apply (print_url_never_installs SampleOnline.env SampleOnline.print_args).
  reflexivity.
Defined.

(** X5. An installer subprocess is only ever run without [--print-url],
    after the artifact host has answered the [HEAD] request for a URL with
    success, and on the command [_install_cmd] builds for that URL, which
    ends with [pip install --force-reinstall --no-deps] and the URL. *)
Theorem install_runs_verified_url (env : Env) (args : Args)
    (cmd : list string) :
  In (EvRun cmd) (trace (main env args)) ->
  print_url args = false
  /\ exists url,
       In (EvHead url HeadOk) (trace (main env args))
       /\ cmd = _install_cmd env (installer args) url
       /\ exists pre, cmd = (pre ++ install_tail url)%list.
Proof.
  installer_unfold.
  destruct (_gather_runtime env) as [rt|e]; installer_cbn; [|intros []].
  repeat (branch; installer_cbn).
  all: intros H; installer_events.
  all: split; [reflexivity|]; eexists; split; [cbn [In]; tauto|];
    split; [reflexivity|apply install_cmd_tail].
Qed.

Lemma install_runs_verified_url_witness :
  print_url SampleOnline.install_args = false
  /\ exists url,
       In (EvHead url HeadOk)
          (trace (main SampleOnline.env SampleOnline.install_args))
       /\ _install_cmd SampleOnline.env auto
            (_wheel_url "v2.8.3" Sample.runtime_cu121)
          = _install_cmd SampleOnline.env
              (installer SampleOnline.install_args) url
       /\ exists pre,
            _install_cmd SampleOnline.env auto
              (_wheel_url "v2.8.3" Sample.runtime_cu121)
            = (pre ++ install_tail url)%list.
Proof.
  apply (install_runs_verified_url SampleOnline.env SampleOnline.install_args).
  vm_compute. tauto.
Defined.

(** X6. When the installer returns a status, it is 2 after a 404 answer
    and without any subprocess, or 0 with [--print-url] after a successful
    [HEAD] request, or else the return code of the installer subprocess it
    ran, unchanged. *)
Theorem installer_exit_status (env : Env) (args : Args) (c : Z) :
  outcome (main env args) = Ok c ->
  (c = 2%Z
   /\ (exists url reason,
         In (EvHead url (HeadHTTPError 404 reason)) (trace (main env args)))
   /\ forall cmd, ~ In (EvRun cmd) (trace (main env args)))
  \/ (c = 0%Z /\ print_url args = true
      /\ exists url, In (EvHead url HeadOk) (trace (main env args)))
  \/ (print_url args = false
      /\ exists cmd,
           In (EvRun cmd) (trace (main env args))
           /\ subprocess_run env cmd = Ok c).
Proof.
  installer_unfold.
  destruct (_gather_runtime env) as [rt|e]; installer_cbn;
    [|intros H; discriminate H].
  repeat (branch; installer_cbn).
  all: intros H; try discriminate H; injection H as <-.
  all: repeat match goal with
              | H : (_ =? _) = true |- _ => apply Nat.eqb_eq in H; subst
              end.
  all: first
         [ left; split; [reflexivity|];
           split; [do 2 eexists; cbn [In]; tauto
                  |intros cmd H; installer_events]
         | right; left; split; [reflexivity|]; split; [reflexivity|];
           eexists; cbn [In]; tauto
         | right; right; split; [reflexivity|];
           eexists; split; [cbn [In]; tauto|assumption] ].
Qed.

Lemma installer_exit_status_witness :
  (0%Z = 2%Z
   /\ (exists url reason,
         In (EvHead url (HeadHTTPError 404 reason))
            (trace (main SampleOnline.env SampleOnline.install_args)))
   /\ forall cmd,
        ~ In (EvRun cmd) (trace (main SampleOnline.env SampleOnline.install_args)))
  \/ (0%Z = 0%Z /\ print_url SampleOnline.install_args = true
      /\ exists url,
           In (EvHead url HeadOk)
              (trace (main SampleOnline.env SampleOnline.install_args)))
  \/ (print_url SampleOnline.install_args = false
      /\ exists cmd,
           In (EvRun cmd) (trace (main SampleOnline.env SampleOnline.install_args))
           /\ subprocess_run SampleOnline.env cmd = Ok 0%Z).
Proof.
  apply (installer_exit_status SampleOnline.env SampleOnline.install_args 0%Z).
  reflexivity.
Defined.

End InstallerRunMore.

Section InstallerRunMore2.

Import Installer.

(** X7. With an explicit release tag, a gathered fingerprint, a successful
    [HEAD] request and no [--print-url], the installer prints the runtime,
    the URL and the command, runs that command once, and ends as the
    subprocess does: with its return code, or with the exception that
    running it raised. *)
Theorem install_run (env : Env) (args : Args) (t : string) (rt : RuntimeInfo) :
  release_tag args = Some t ->
  _gather_runtime env = Ok rt ->
  head env (_wheel_url t rt) = HeadOk ->
  print_url args = false ->
  let url := _wheel_url t rt in
  let cmd := _install_cmd env (installer args) url in
  main env args
  = ([EvPrint ("torch=" ++ torch_version rt ++ " cuda=" ++ torch_cuda rt
               ++ " python=" ++ python_tag rt);
      EvPrint ("Resolved wheel: " ++ url);
      EvHead url HeadOk;
      EvPrint ("Installing via: " ++ join_space cmd);
      EvRun cmd],
     subprocess_run env cmd).
Proof.
  intros A G H P url cmd. subst url cmd. installer_unfold.
  rewrite A, G. installer_cbn. rewrite H, P. installer_cbn.
  now destruct (subprocess_run env _).
Qed.

Lemma install_run_witness :
  outcome (main SampleOnline.env SampleOnline.install_args) = Ok 0%Z.
Proof.
  rewrite (install_run SampleOnline.env SampleOnline.install_args "v2.8.3"
             Sample.runtime_cu121);
    reflexivity.
Defined.

(** X8. Without [--release-tag], when the release index answers with an
    object whose ["tag_name"] is a non-empty string, that string is the
    resolved tag: it is announced, and the URL that is printed and checked
    is built from it. *)
Theorem latest_tag_is_used (env : Env) (args : Args) (rt : RuntimeInfo)
    (t : string) :
  _gather_runtime env = Ok rt ->
  release_tag args = None ->
  release_index env = IndexObject (Some (TagStr t)) ->
  t <> "" ->
  resolve_release_tag env args
  = ([EvIndexQuery GITHUB_API_RELEASE_LATEST (release_index env);
      EvPrint ("Using latest release tag: " ++ t)],
     Ok (TagStr t))
  /\ exists rest,
       trace (main env args)
       = ([EvIndexQuery GITHUB_API_RELEASE_LATEST (release_index env);
           EvPrint ("Using latest release tag: " ++ t);
           EvPrint ("torch=" ++ torch_version rt ++ " cuda=" ++ torch_cuda rt
                    ++ " python=" ++ python_tag rt);
           EvPrint ("Resolved wheel: " ++ _wheel_url t rt);
           EvHead (_wheel_url t rt) (head env (_wheel_url t rt))]
          ++ rest)%list.
Proof.
  intros G A I N.
  assert (T : tag_truthy (TagStr t) = true).
  { cbn. now destruct t. }
  assert (R : resolve_release_tag env args
              = ([EvIndexQuery GITHUB_API_RELEASE_LATEST (release_index env);
                  EvPrint ("Using latest release tag: " ++ t)],
                 Ok (TagStr t))).
  { unfold resolve_release_tag, _get_latest_release_tag. rewrite A, I.
    unfold try_except, print, bind, emit, ret. rewrite T. reflexivity. }
  split; [exact R|].
  unfold main. rewrite G, R.
  unfold _wheel_exists, print, bind, lift, emit, ret, raise, trace.
  installer_cbn. repeat (branch; installer_cbn); eexists; reflexivity.
Qed.

Lemma latest_tag_is_used_witness :
  resolve_release_tag SampleOnline.env SampleOnline.print_args
  = ([EvIndexQuery GITHUB_API_RELEASE_LATEST (release_index SampleOnline.env);
      EvPrint "Using latest release tag: v2.8.3"],
     Ok (TagStr "v2.8.3")).
Proof.
  apply (latest_tag_is_used SampleOnline.env SampleOnline.print_args
           Sample.runtime_cu121 "v2.8.3").
  - reflexivity.
  - reflexivity.
  - reflexivity.
  - discriminate.
Defined.

(** X9. Nothing is retried: a run of the installer queries the release
    index at most once, sends at most one [HEAD] request and runs at most
    one subprocess. *)
Theorem installer_at_most_once (env : Env) (args : Args) :
  length (filter is_index_query (trace (main env args))) <= 1
  /\ length (filter is_head (trace (main env args))) <= 1
  /\ length (filter is_run (trace (main env args))) <= 1.
Proof.
  installer_unfold.
  destruct (_gather_runtime env) as [rt|e]; installer_cbn; [|lia].
  repeat (branch; installer_cbn); lia.
Qed.

(** X10. The release tag can be read off the URL: for release tags
    without a slash, different tags give different URLs, whatever the
    fingerprints. *)
Theorem wheel_url_tag_injective (t1 t2 : string) (r1 r2 : RuntimeInfo) :
  all_chars not_slash t1 = true -> all_chars not_slash t2 = true ->
  t1 <> t2 -> _wheel_url t1 r1 <> _wheel_url t2 r2.
Proof.
  intros S1 S2 N H. apply N. unfold _wheel_url in H.
  do 3 apply append_inv_head in H.
  apply (append_split not_slash) in H;
    [ tauto | assumption | assumption
      | intros x r E; injection E as <- _; reflexivity
      | intros x r E; injection E as <- _; reflexivity
      | discriminate | discriminate ].
Qed.

Lemma wheel_url_tag_injective_witness :
  _wheel_url "v2.8.3" Sample.runtime_cu121
  <> _wheel_url "v2.7.0" Sample.runtime_cu124.
Proof.
  apply (wheel_url_tag_injective "v2.8.3" "v2.7.0"
           Sample.runtime_cu121 Sample.runtime_cu124).
  - reflexivity.
  - reflexivity.
  - discriminate.
Defined.

End InstallerRunMore2.

(* ================================================================== *)
(** ** More on the inspector *)

Ltac inspector_unfold :=
  unfold Inspector.main, Inspector._print_runtime, Inspector._cmd_output,
    Inspector._try_import, Inspector.attr, Inspector.print,
    bind, lift, emit, ret, raise, trace, outcome.

Ltac inspector_cbn :=
  cbn -[append contains strip splitlines item_last item_first replace_char
        Inspector.abi_diagnosis Inspector.fix_line Inspector.command_line
        Inspector.nvcc_cmd Inspector.nvidia_smi_cmd success_line missing_line].

(** Two printed lines are told apart by their first characters. *)
Ltac inspector_events :=
  repeat match goal with
         | H : In _ _ |- _ => cbn [In app] in H
         | H : _ \/ _ |- _ => destruct H
         | H : False |- _ => elim H
         | H : Inspector.EvPrint _ = Inspector.EvPrint _ |- _ =>
             first [ discriminate H
                   | exfalso; injection H as H;
                     unfold Inspector.abi_diagnosis, Inspector.fix_line,
                       Inspector.command_line, success_line, missing_line in H;
                     cbn in H; discriminate H
                   | clear H ]
         | H : @eq Inspector.Event _ _ |- _ =>
             first [ discriminate H | inversion H; subst; clear H ]
         end.

Section InspectorMore.

Import Inspector.

(** X11. In the inspector, whenever the import of torch fails, the failure
    is printed with the exception's type and message, the exit code is 1,
    and no other import is tried. *)
Theorem torch_failure_exits_1 (env : Env) (e : Exc) :
  In (EvImport "torch" (Some e)) (trace (main env)) ->
  outcome (main env) = Ok 1%Z
  /\ In (EvPrint ("torch import failed: " ++ exc_type e ++ ": " ++ exc_msg e))
        (trace (main env))
  /\ forall name failure,
       In (EvImport name failure) (trace (main env)) -> name = "torch".
Proof.
  inspector_unfold. repeat (branch; inspector_cbn).
  all: intros H; inspector_events.
  all: split; [reflexivity|]; split; [cbn [In]; tauto|].
  all: intros name failure H; inspector_events; reflexivity.
Qed.

Lemma torch_failure_exits_1_witness :
  outcome (main SampleInspectorMore.no_torch) = Ok 1%Z
  /\ In (EvPrint "torch import failed: ModuleNotFoundError: No module named 'torch'")
        (trace (main SampleInspectorMore.no_torch))
  /\ forall name failure,
       In (EvImport name failure) (trace (main SampleInspectorMore.no_torch)) ->
       name = "torch".
Proof.
  apply (torch_failure_exits_1 SampleInspectorMore.no_torch
           (SampleInspectorMore.no_module "torch")).
  vm_compute. tauto.
Defined.

(** X12. In the inspector, whenever the import of flash_attn fails, the
    failure and the diagnosis that flash-attn is missing or not loadable are
    printed, the exit code is 2, and the import of the compiled extension is
    not tried. *)
Theorem flash_attn_failure_exits_2 (env : Env) (e : Exc) :
  In (EvImport "flash_attn" (Some e)) (trace (main env)) ->
  outcome (main env) = Ok 2%Z
  /\ In (EvPrint ("flash_attn import failed: " ++ exc_type e ++ ": "
                  ++ exc_msg e))
        (trace (main env))
  /\ In (EvPrint missing_line) (trace (main env))
  /\ forall failure,
       ~ In (EvImport "flash_attn_2_cuda" failure) (trace (main env)).
Proof.
  inspector_unfold. repeat (branch; inspector_cbn).
  all: intros H; inspector_events.
  all: split; [reflexivity|]; split; [cbn [In]; tauto|];
    split; [cbn [In]; tauto|].
  all: intros failure H; inspector_events.
Qed.

Lemma flash_attn_failure_exits_2_witness :
  outcome (main SampleInspectorMore.no_flash_attn) = Ok 2%Z
  /\ In (EvPrint "flash_attn import failed: ModuleNotFoundError: No module named 'flash_attn'")
        (trace (main SampleInspectorMore.no_flash_attn))
  /\ In (EvPrint missing_line) (trace (main SampleInspectorMore.no_flash_attn))
  /\ forall failure,
       ~ In (EvImport "flash_attn_2_cuda" failure)
            (trace (main SampleInspectorMore.no_flash_attn)).
Proof.
  apply (flash_attn_failure_exits_2 SampleInspectorMore.no_flash_attn
           (SampleInspectorMore.no_module "flash_attn")).
  vm_compute. tauto.
Defined.

(** X13. The remediation command is suggested only for an unresolved
    symbol: whenever the inspector prints it, the import of the compiled
    extension has failed with a message that contains ["undefined symbol"],
    and the exit code is 3. *)
Theorem remediation_only_for_undefined_symbol (env : Env) :
  In (EvPrint command_line) (trace (main env)) ->
  outcome (main env) = Ok 3%Z
  /\ exists e,
       import_flash_attn_2_cuda env = Raise e
       /\ contains "undefined symbol" (exc_msg e) = true.
Proof.
  inspector_unfold. repeat (branch; inspector_cbn).
  all: intros H; inspector_events.
  all: split; [reflexivity|]; eexists; split; [reflexivity|assumption].
Qed.

Lemma remediation_only_for_undefined_symbol_witness :
  outcome (main SampleInspector.env) = Ok 3%Z
  /\ exists e,
       import_flash_attn_2_cuda SampleInspector.env = Raise e
       /\ contains "undefined symbol" (exc_msg e) = true.
Proof.
  apply (remediation_only_for_undefined_symbol SampleInspector.env).
  vm_compute. tauto.
Defined.

(** X14. The inspector reports compatibility only when everything loaded:
    whenever it prints that flash-attn looks ABI-compatible, the three
    imports have succeeded and the exit code is 0. *)
Theorem success_means_all_imports (env : Env) :
  In (EvPrint success_line) (trace (main env)) ->
  outcome (main env) = Ok 0%Z
  /\ (exists t, import_torch env = Ok t)
  /\ (exists f, import_flash_attn env = Ok f)
  /\ import_flash_attn_2_cuda env = Ok tt.
Proof.
  inspector_unfold. repeat (branch; inspector_cbn).
  all: intros H; inspector_events.
  all: split; [reflexivity|]; split; [eexists; reflexivity|];
    split; [eexists; reflexivity|];
    match goal with |- Ok ?u = Ok tt => now destruct u end.
Qed.

Lemma success_means_all_imports_witness :
  outcome (main SampleInspectorMore.healthy) = Ok 0%Z
  /\ (exists t, import_torch SampleInspectorMore.healthy = Ok t)
  /\ (exists f, import_flash_attn SampleInspectorMore.healthy = Ok f)
  /\ import_flash_attn_2_cuda SampleInspectorMore.healthy = Ok tt.
Proof.
  apply (success_means_all_imports SampleInspectorMore.healthy).
  vm_compute. tauto.
Defined.

End InspectorMore.

Section InspectorOutcome.

Import Inspector.

Lemma lstrip_ws_empty (s : string) :
  lstrip_ws s = "" <-> all_chars is_space s = true.
Proof.
  induction s as [|c s IH]; simpl; [tauto|].
  destruct (is_space c); simpl; [exact IH|]. split; discriminate.
Qed.

Lemma lstrip_ws_head (s : string) (c : ascii) (r : string) :
  lstrip_ws s = String c r -> is_space c = false.
Proof.
  induction s as [|d s IH]; simpl; [discriminate|].
  destruct (is_space d) eqn:D; [exact IH|].
  intros H. injection H as <- _. exact D.
Qed.

Lemma rstrip_ws_empty (s : string) :
  rstrip_ws s = "" <-> all_chars is_space s = true.
Proof.
  induction s as [|c s IH]; simpl; [tauto|].
  destruct (is_space c); simpl.
  - destruct (rstrip_ws s) eqn:R; simpl.
    + split; [intros _; now apply IH|reflexivity].
    + split; [discriminate|]. intros A. apply IH in A. discriminate A.
  - split; discriminate.
Qed.

(** [strip] leaves nothing exactly of the strings that are all white
    space. *)
Lemma strip_empty (s : string) :
  strip s = "" <-> all_chars is_space s = true.
Proof.
  unfold strip. rewrite rstrip_ws_empty. split.
  - intros A. apply lstrip_ws_empty.
    destruct (lstrip_ws s) as [|c r] eqn:L; [reflexivity|].
    apply lstrip_ws_head in L. simpl in A. now rewrite L in A.
  - intros A. apply lstrip_ws_empty in A. now rewrite A.
Qed.

Ltac outcome_cbn :=
  cbn -[append contains strip splitlines item_last item_first replace_char
        abi_diagnosis fix_line command_line nvcc_cmd nvidia_smi_cmd
        _cmd_output].

(** A probe that does not end the run shows a non-empty text. *)
Lemma probe_end_none (env : Env) (cmd : list string) :
  probe_end env cmd = None ->
  exists text,
    text <> ""
    /\ _cmd_output env cmd = ([EvProbe cmd (check_output env cmd)], Ok text).
Proof.
  unfold probe_end, _cmd_output, bind, emit, ret, raise.
  destruct (check_output env cmd) as [output|exc].
  - destruct (all_chars is_space output) eqn:A; [discriminate|]. intros _.
    exists (strip output). split; [|reflexivity].
    intros B. apply strip_empty in B. congruence.
  - destruct (is_Exception env exc); [|discriminate]. intros _.
    eexists. split; [|reflexivity]. discriminate.
Qed.

(** A probe that ends the run does so by raising, or by showing nothing. *)
Lemma probe_end_some (env : Env) (cmd : list string) (e : Exc) :
  probe_end env cmd = Some e ->
  _cmd_output env cmd = ([EvProbe cmd (check_output env cmd)], Raise e)
  \/ (e = index_error
      /\ _cmd_output env cmd = ([EvProbe cmd (check_output env cmd)], Ok "")).
Proof.
  unfold probe_end, _cmd_output, bind, emit, ret, raise.
  destruct (check_output env cmd) as [output|exc].
  - destruct (all_chars is_space output) eqn:A; [|discriminate].
    intros H. injection H as <-. right. split; [reflexivity|].
    apply strip_empty in A. now rewrite A.
  - destruct (is_Exception env exc); [discriminate|].
    intros H. injection H as <-. now left.
Qed.

Lemma nvcc_ends_run (env : Env) (e : Exc) :
  probe_end env nvcc_cmd = Some e -> outcome (main env) = Raise e.
Proof.
  intros P. unfold main, _print_runtime.
  destruct (probe_end_some _ _ _ P) as [C|[-> C]]; rewrite C; reflexivity.
Qed.

Lemma smi_ends_run (env : Env) (e : Exc) :
  probe_end env nvcc_cmd = None -> probe_end env nvidia_smi_cmd = Some e ->
  outcome (main env) = Raise e.
Proof.
  intros Pn Ps.
  destruct (probe_end_none _ _ Pn) as (text & N & Cn).
  destruct (item_last_ok _ (splitlines_nonempty _ N)) as [l1 E1].
  unfold main, _print_runtime. rewrite Cn.
  unfold outcome, print, bind, lift, emit, ret. outcome_cbn.
  rewrite E1. outcome_cbn.
  destruct (probe_end_some _ _ _ Ps) as [C|[-> C]]; rewrite C; reflexivity.
Qed.

Lemma outcome_after_probes (env : Env) :
  probe_end env nvcc_cmd = None -> probe_end env nvidia_smi_cmd = None ->
  outcome (main env)
  = match import_end env with
    | Some exc => Raise exc
    | None => Ok (diagnosis_code env)
    end.
Proof.
  intros Pn Ps.
  destruct (probe_end_none _ _ Pn) as (t1 & N1 & C1).
  destruct (probe_end_none _ _ Ps) as (t2 & N2 & C2).
  destruct (item_last_ok _ (splitlines_nonempty _ N1)) as [l1 E1].
  destruct (item_first_ok _ (splitlines_nonempty _ N2)) as [l2 E2].
  unfold main, _print_runtime. rewrite C1.
  unfold outcome, print, bind, lift, emit, ret. outcome_cbn.
  rewrite E1. outcome_cbn. rewrite C2. outcome_cbn. rewrite E2.
  unfold import_end, diagnosis_code, _try_import, attr, bind, emit, ret, raise.
  outcome_cbn. repeat (branch; outcome_cbn); reflexivity.
Qed.

(** X15. How the inspector ends, for every outcome of the two probe
    commands and of the three imports (the imported torch providing the
    attributes the script reads).  The first probe
    that raises an exception that is not an instance of [Exception], or
    that succeeds with a blank output, ends it with that exception or with
    an uncaught [IndexError]; if no probe does, the first import that does
    not succeed ends it, with its exception when that is not an instance
    of [Exception], and otherwise with exit code 1, 2 or 3 for torch,
    flash_attn and the compiled extension; if every import succeeds the
    exit code is 0. *)
Theorem inspector_outcome (env : Env) :
  outcome (main env) = expected_outcome env.
Proof.
  unfold expected_outcome.
  destruct (probe_end env nvcc_cmd) as [e|] eqn:Pn;
    [now apply nvcc_ends_run|].
  destruct (probe_end env nvidia_smi_cmd) as [e|] eqn:Ps;
    [now apply smi_ends_run|].
  now apply outcome_after_probes.
Qed.

Lemma probe_end_some_iff (env : Env) (cmd : list string) :
  (exists e, probe_end env cmd = Some e) <->
  prints_blank env cmd \/ exists exc, escapes env (check_output env cmd) exc.
Proof.
  unfold probe_end, prints_blank, escapes.
  destruct (check_output env cmd) as [output|exc].
  - destruct (all_chars is_space output) eqn:A; split.
    + intros _. left. now exists output.
    + intros _. now exists index_error.
    + intros [e H]. discriminate H.
    + intros [(o & E & B)|(x & E & _)]; [|discriminate E].
      injection E as <-. congruence.
  - destruct (is_Exception env exc) eqn:I; split.
    + intros [e H]. discriminate H.
    + intros [(o & E & _)|(x & E & B)]; [discriminate E|].
      injection E as <-. congruence.
    + intros _. right. now exists exc.
    + intros _. now exists exc.
Qed.

Lemma import_end_iff (env : Env) (exc : Exc) :
  import_end env = Some exc <-> import_escapes env exc.
Proof.
  unfold import_end, import_escapes, escapes.
  destruct (import_torch env) as [t|e1].
  - destruct (import_flash_attn env) as [f|e2].
    + destruct (import_flash_attn_2_cuda env) as [u|e3].
      * split; [discriminate|].
        intros [[E _]|[_ [[E _]|[_ [E _]]]]]; discriminate E.
      * destruct (is_Exception env e3) eqn:I; split.
        -- discriminate.
        -- intros [[E _]|[_ [[E _]|[_ [E B]]]]]; try discriminate E.
           injection E as <-. congruence.
        -- intros H. injection H as <-. right. split; [now exists t|].
           right. split; [now exists f|]. now split.
        -- intros [[E _]|[_ [[E _]|[_ [E B]]]]]; try discriminate E.
           now injection E as <-.
    + destruct (is_Exception env e2) eqn:I; split.
      * discriminate.
      * intros [[E _]|[_ [[E B]|[[f E] _]]]]; try discriminate E.
        injection E as <-. congruence.
      * intros H. injection H as <-. right. split; [now exists t|].
        left. now split.
      * intros [[E _]|[_ [[E B]|[[f E] _]]]]; try discriminate E.
        now injection E as <-.
  - destruct (is_Exception env e1) eqn:I; split.
    + discriminate.
    + intros [[E B]|[[t E] _]]; [|discriminate E].
      injection E as <-. congruence.
    + intros H. injection H as <-. left. now split.
    + intros [[E B]|[[t E] _]]; [|discriminate E].
      now injection E as <-.
Qed.

(** X16. The inspector ends with an uncaught exception exactly when a
    probe command succeeds and prints nothing but white space, or a probe
    command raises an exception that is not an instance of [Exception], or
    the first import that does not succeed raises such an exception.  A
    probe command or an import that fails with an instance of [Exception]
    never ends it so. *)
Theorem inspector_crash_iff (env : Env) :
  (exists e, outcome (main env) = Raise e) <->
  (prints_blank env nvcc_cmd
   \/ (exists exc, escapes env (check_output env nvcc_cmd) exc))
  \/ (prints_blank env nvidia_smi_cmd
      \/ (exists exc, escapes env (check_output env nvidia_smi_cmd) exc))
  \/ (exists exc, import_escapes env exc).
Proof.
  rewrite <- !probe_end_some_iff.
  destruct (probe_end env nvcc_cmd) as [e1|] eqn:Pn.
  { split; [intros _; left; now exists e1|].
    intros _. exists e1. now apply nvcc_ends_run. }
  destruct (probe_end env nvidia_smi_cmd) as [e2|] eqn:Ps.
  { split; [intros _; right; left; now exists e2|].
    intros _. exists e2. now apply smi_ends_run. }
  rewrite (outcome_after_probes env Pn Ps).
  destruct (import_end env) as [e3|] eqn:Pi.
  - apply import_end_iff in Pi.
    split; [intros _; right; right; now exists e3|]. intros _. now exists e3.
  - split; [intros [e H]; discriminate H|].
    intros [[e H]|[[e H]|[e H]]]; try discriminate H.
    apply import_end_iff in H. congruence.
Qed.

(** An import that calls [sys.exit] ends the inspector with [SystemExit]. *)
Lemma inspector_system_exit_escapes :
  outcome (main SampleInspectorMore.exiting) = Raise (mkExc "SystemExit" "5").
Proof. reflexivity. Qed.

End InspectorOutcome.
